(** * Orbital estimation engine of solar-system-explore

    A shallow embedding of [orbital_calculations.py] (class
    [OrbitalCalculator]) and of the arrival test of [app.py], together
    with the properties its specification states about it.

    Modelling conventions.
    - Python [float] values are real numbers ([R]): arithmetic is exact,
      rounding, infinities and NaN are not represented.  Python [int]
      values are [Z]; an [int] used in float arithmetic is injected with
      [IZR].
    - Two exceptions of binary64 arithmetic have no counterpart over the
      reals: [OverflowError], which [**] raises when a square exceeds the
      float range, and the [ValueError] of [math.sin] and [math.cos] on
      an infinite argument (a mean motion [2 pi / period] that overflows).
      A statement that a call returns is therefore given either for the
      result of a call that has returned, or for inputs bounded in
      magnitude ([state_within], and bounds on periods and axes), where
      neither of the two can occur.
    - A Python exception is a value [Raise e] of the type [result]; code
      that can raise lives in the error monad [result].  Division by a
      divisor that is not a non-zero literal, and [math.sqrt], are the
      fallible float operations; arithmetic on [None] is a [TypeError].
    - [str] is [string], read as a sequence of Latin-1 code points.
    - [datetime.now()] reads the ambient world; the world is an explicit
      argument of the functions that call it. *)

From Stdlib Require Import ZArith Bool List String Ascii.
From Stdlib Require Import Reals Lra Lia.
Import ListNotations.

(** ** Exceptions and the error monad *)

Inductive exn : Type :=
| ValueError
| ZeroDivisionError
| TypeError.

Inductive result (A : Type) : Type :=
| Ok (a : A)
| Raise (e : exn).

Arguments Ok {A} a.
Arguments Raise {A} e.

Definition bind {A B : Type} (m : result A) (k : A -> result B) : result B :=
  match m with
  | Ok a => k a
  | Raise e => Raise e
  end.

Declare Scope py_scope.
Delimit Scope py_scope with py.
Notation "x <- m ;; k" := (bind m (fun x => k))
  (at level 61, m at next level, right associativity) : py_scope.
Notation "' pat <- m ;; k" := (bind m (fun x => match x with pat => k end))
  (at level 61, pat pattern, m at next level, right associativity) : py_scope.

(** ** Strings *)

Local Open Scope string_scope.

(** [sub in s] on [str]: [sub] occurs in [s] as a contiguous run. *)
Fixpoint contains (sub s : string) : bool :=
  prefix sub s ||
  match s with
  | EmptyString => false
  | String _ s' => contains sub s'
  end.

(** Truth value of a [str]: the empty string is falsy. *)
Definition str_truthy (s : string) : bool :=
  match s with
  | EmptyString => false
  | String _ _ => true
  end.

(** ** Calendar: [datetime], [strptime], comparison and difference *)

Local Open Scope Z_scope.

Record datetime : Type := mk_datetime {
  year : Z;
  month : Z;
  day : Z;
  hour : Z;
  minute : Z;
  second : Z;
  microsecond : Z
}.

Definition is_leap (y : Z) : bool :=
  (y mod 4 =? 0) && (negb (y mod 100 =? 0) || (y mod 400 =? 0)).

Definition days_in_month (y m : Z) : Z :=
  if m =? 2 then (if is_leap y then 29 else 28)
  else if (m =? 4) || (m =? 6) || (m =? 9) || (m =? 11) then 30
  else 31.

(** Days before January 1st of year [y] (proleptic Gregorian ordinal). *)
Definition days_before_year (y : Z) : Z :=
  let y' := y - 1 in
  y' * 365 + y' / 4 - y' / 100 + y' / 400.

(** Days of a common year before the first day of month [m]. *)
Definition DAYS_BEFORE_MONTH (m : Z) : Z :=
  match m with
  | 1 => 0
  | 2 => 31
  | 3 => 59
  | 4 => 90
  | 5 => 120
  | 6 => 151
  | 7 => 181
  | 8 => 212
  | 9 => 243
  | 10 => 273
  | 11 => 304
  | 12 => 334
  | _ => 0
  end.

(** Days of year [y] before the first day of month [m]. *)
Definition days_before_month (y m : Z) : Z :=
  DAYS_BEFORE_MONTH m + (if (2 <? m) && is_leap y then 1 else 0).

Definition toordinal (d : datetime) : Z :=
  days_before_year (year d) + days_before_month (year d) (month d) + day d.

(** Microseconds from the origin of the proleptic calendar. *)
Definition to_microseconds (d : datetime) : Z :=
  (((toordinal d * 24 + hour d) * 60 + minute d) * 60 + second d) * 1000000
  + microsecond d.

(** [(a - b)] as a [timedelta], kept as its total number of microseconds. *)
Definition datetime_sub (a b : datetime) : Z :=
  to_microseconds a - to_microseconds b.

(** [a <= b] on naive datetimes: the order of the field tuples. *)
Definition datetime_cmp (a b : datetime) : comparison :=
  match year a ?= year b with
  | Eq =>
    match month a ?= month b with
    | Eq =>
      match day a ?= day b with
      | Eq =>
        match hour a ?= hour b with
        | Eq =>
          match minute a ?= minute b with
          | Eq =>
            match second a ?= second b with
            | Eq => microsecond a ?= microsecond b
            | c => c
            end
          | c => c
          end
        | c => c
        end
      | c => c
      end
    | c => c
    end
  | c => c
  end.

Definition datetime_le (a b : datetime) : bool :=
  match datetime_cmp a b with
  | Gt => false
  | _ => true
  end.

(** *** [datetime.strptime(s, '%Y-%m-%d')]

    The format compiles to the regular expression
    [(\d\d\d\d)-(1[0-2]|0[1-9]|[1-9])-(3[01]|[12]\d|0[1-9]|[1-9]| [1-9])],
    matched at the start of the text with the alternatives tried in
    order; text left after the match, or a (year, month, day) that is
    not a date, is a [ValueError]. *)

Definition code (c : ascii) : Z := Z.of_nat (nat_of_ascii c).

Definition between (lo hi : ascii) (c : ascii) : bool :=
  (code lo <=? code c) && (code c <=? code hi).

Definition is_digit : ascii -> bool := between "0" "9".

Definition digit_val (c : ascii) : Z := code c - 48.

(** A matcher returns its candidate matches, first choice first, each
    with the text that follows it. *)
Definition matcher (A : Type) : Type := string -> list (A * string).

Definition two_chars (p1 p2 : ascii -> bool) : matcher Z :=
  fun s =>
    match s with
    | String a (String b rest) =>
        if p1 a && p2 b then [(10 * digit_val a + digit_val b, rest)] else []
    | _ => []
    end.

Definition one_char (p : ascii -> bool) : matcher Z :=
  fun s =>
    match s with
    | String a rest => if p a then [(digit_val a, rest)] else []
    | _ => []
    end.

Definition space_then (p : ascii -> bool) : matcher Z :=
  fun s =>
    match s with
    | String a (String b rest) =>
        if Ascii.eqb a " " && p b then [(digit_val b, rest)] else []
    | _ => []
    end.

Definition alt {A : Type} (m1 m2 : matcher A) : matcher A :=
  fun s => (m1 s ++ m2 s)%list.

Definition lit (c : ascii) : matcher unit :=
  fun s =>
    match s with
    | String a rest => if Ascii.eqb a c then [(tt, rest)] else []
    | _ => []
    end.

Definition and_then {A B : Type} (m1 : matcher A) (m2 : A -> matcher B) : matcher B :=
  fun s => flat_map (fun ar => m2 (fst ar) (snd ar)) (m1 s).

(** [%Y]: [\d\d\d\d]. *)
Definition re_Y : matcher Z :=
  fun s =>
    match s with
    | String a (String b (String c (String d rest))) =>
        if is_digit a && is_digit b && is_digit c && is_digit d
        then [(1000 * digit_val a + 100 * digit_val b
               + 10 * digit_val c + digit_val d, rest)]
        else []
    | _ => []
    end.

(** [%m]: [1[0-2]|0[1-9]|[1-9]]. *)
Definition re_m : matcher Z :=
  alt (two_chars (Ascii.eqb "1") (between "0" "2"))
 (alt (two_chars (Ascii.eqb "0") (between "1" "9"))
      (one_char (between "1" "9"))).

(** [%d]: [3[01]|[12]\d|0[1-9]|[1-9]| [1-9]]. *)
Definition re_d : matcher Z :=
  alt (two_chars (Ascii.eqb "3") (between "0" "1"))
 (alt (two_chars (between "1" "2") is_digit)
 (alt (two_chars (Ascii.eqb "0") (between "1" "9"))
 (alt (one_char (between "1" "9"))
      (space_then (between "1" "9"))))).

Definition re_ymd : matcher (Z * Z * Z) :=
  and_then re_Y (fun y =>
  and_then (lit "-") (fun _ =>
  and_then re_m (fun m =>
  and_then (lit "-") (fun _ =>
  and_then re_d (fun d s => [((y, m, d), s)]))))).

(** The [datetime] constructor's range check, at midnight. *)
Definition make_date (y m d : Z) : result datetime :=
  if (1 <=? y) && (y <=? 9999) && (1 <=? m) && (m <=? 12)
     && (1 <=? d) && (d <=? days_in_month y m)
  then Ok (mk_datetime y m d 0 0 0 0)
  else Raise ValueError.

(** [datetime.strptime(s, '%Y-%m-%d')]: the first match of the regular
    expression, which has to consume the whole text and to name a date. *)
Definition strptime (s : string) : result datetime :=
  match re_ymd s with
  | [] => Raise ValueError
  | ((y, m, d), rest) :: _ =>
      if str_truthy rest then Raise ValueError else make_date y m d
  end.

(** ** Floating-point operations that can raise *)

Local Open Scope R_scope.
Local Open Scope py_scope.

(** [x / y]: [ZeroDivisionError] on a zero divisor. *)
Definition pydiv (x y : R) : result R :=
  if Req_dec_T y 0 then Raise ZeroDivisionError else Ok (x / y).

(** [math.sqrt(x)]: [ValueError] on a negative argument. *)
Definition pysqrt (x : R) : result R :=
  if Rlt_dec x 0 then Raise ValueError else Ok (sqrt x).

(** [x % y] for a positive divisor: [x - floor(x / y) * y]. *)
Definition pymod (x y : R) : R :=
  x - IZR (Int_part (x / y)) * y.

(** [math.radians]. *)
Definition radians (deg : R) : R := deg * (PI / 180).

(** [math.atan2(y, x)], with values in (-pi, pi]. *)
Definition atan2 (y x : R) : R :=
  if Rlt_dec 0 x then atan (y / x)
  else if Rlt_dec x 0 then
    (if Rle_dec 0 y then atan (y / x) + PI else atan (y / x) - PI)
  else
    (if Rlt_dec 0 y then PI / 2
     else if Rlt_dec y 0 then - (PI / 2)
     else 0).

(** ** Astronomical constants *)

Definition AU : R := 1.496e8.
Definition G : R := 6.67430e-20.
Definition M_SUN : R := 1.989e30.
Definition M_EARTH : R := 5.972e24.
Definition DAY_SECONDS : R := 86400.
Definition YEAR_SECONDS : R := 365.25 * DAY_SECONDS.

(** ** Data *)

Record orbital_elements : Type := mk_orbital_elements {
  semi_major_axis : R;
  eccentricity : R;
  inclination : R;
  orbital_period : R;
  mean_anomaly_0 : R;
  perihelion_0 : R;
  ascending_node_0 : R
}.

(** The dictionary returned by the three position functions. *)
Record StateVector : Type := mk_state {
  x : R;
  y : R;
  z : R;
  vx : R;
  vy : R;
  vz : R;
  distance_sun : R;
  speed_sun : R
}.

Record moon_data : Type := mk_moon_data {
  moon_semi_major_axis : R;
  moon_orbital_period : R;
  moon_inclination : R
}.

Record relative_motion : Type := mk_relative {
  distance_earth : R;
  speed_earth : R
}.

(** A value looked up with [dict.get(key, default)]: the key may be
    missing, or hold [None] (an SQL NULL), or hold a float. *)
Inductive entry : Type :=
| Missing
| Null
| Val (v : R).

(** A spacecraft row; [target_body] and [arrival_time] are nullable
    columns, [None] standing for a missing key as well as for NULL. *)
Record spacecraft_data : Type := mk_spacecraft {
  launch_date : string;
  target_body : option string;
  status : string;
  trajectory_type : string;
  name_en : string;
  launch_speed : entry;
  arrival_time : option string
}.

(** The optional [target_position] / [earth_position] dictionaries. *)
Definition pydict : Type := list (string * R).

Fixpoint dict_get (d : pydict) (key : string) (default : R) : R :=
  match d with
  | [] => default
  | (k, v) :: d' => if String.eqb k key then v else dict_get d' key default
  end.

Definition dict_truthy (d : option pydict) : bool :=
  match d with
  | Some (_ :: _) => true
  | _ => false
  end.

(** [spacecraft_data.get('launch_speed', default)], as a float operand. *)
Definition get_launch_speed (sc : spacecraft_data) (default : R) : result R :=
  match launch_speed sc with
  | Missing => Ok default
  | Null => Raise TypeError
  | Val v => Ok v
  end.

(** [target_body == name]. *)
Definition target_is (sc : spacecraft_data) (name : string) : bool :=
  match target_body sc with
  | Some s => String.eqb s name
  | None => false
  end.

(** ** [julian_date] and [days_since_epoch] *)

Definition julian_day_number (dt : datetime) : Z :=
  (let a := (14 - month dt) / 12 in
   let y := year dt + 4800 - a in
   let m := month dt + 12 * a - 3 in
   day dt + (153 * m + 2) / 5 + 365 * y + y / 4 - y / 100 + y / 400 - 32045)%Z.

Definition julian_date (dt : datetime) : R :=
  let jdn := julian_day_number dt in
  IZR jdn + IZR (hour dt - 12) / 24 + IZR (minute dt) / 1440
  + IZR (second dt) / 86400 + IZR (microsecond dt) / 86400000000.

Definition days_since_epoch (jd : R) : R :=
  let jd2000 := 2451545.0 in
  jd - jd2000.

(** ** [calculate_planet_position] *)

(** One Newton-Raphson step for Kepler's equation [M = E - e sin E]. *)
Definition newton_step (e M E : R) : result R :=
  q <- pydiv (E - e * sin E - M) (1 - e * cos E) ;;
  Ok (E - q).

(** [for _ in range(n)]: the step, [n] times. *)
Fixpoint newton_iter (n : nat) (e M E : R) : result R :=
  match n with
  | O => Ok E
  | S k => E' <- newton_step e M E ;; newton_iter k e M E'
  end.

(** Eccentric anomaly: ten steps from [E = M]. *)
Definition eccentric_anomaly (e M : R) : result R :=
  newton_iter 10 e M M.

(** True anomaly [nu] from the eccentric anomaly. *)
Definition true_anomaly (e E : R) : result R :=
  s1 <- pysqrt (1 + e) ;;
  s2 <- pysqrt (1 - e) ;;
  Ok (2 * atan2 (s1 * sin (E / 2)) (s2 * cos (E / 2))).

(** Distance from the Sun, in AU. *)
Definition orbit_radius (a e E : R) : R :=
  a * (1 - e * cos E).

Definition calculate_planet_position
    (oe : orbital_elements) (current_time : datetime) : result StateVector :=
  let a := semi_major_axis oe in
  let e := eccentricity oe in
  let i := radians (inclination oe) in
  let period := orbital_period oe * YEAR_SECONDS in
  let M0 := radians (mean_anomaly_0 oe) in
  let w0 := radians (perihelion_0 oe) in
  let O0 := radians (ascending_node_0 oe) in
  n <- pydiv (2 * PI) period ;;
  let jd := julian_date current_time in
  let days := days_since_epoch jd in
  let t := days * DAY_SECONDS in
  let M := M0 + n * t in
  E <- eccentric_anomaly e M ;;
  nu <- true_anomaly e E ;;
  let r := orbit_radius a e E in
  let x_orbital := r * cos nu in
  let y_orbital := r * sin nu in
  let z_orbital := 0 in
  let w := w0 in
  let x1 := x_orbital in
  let y1 := y_orbital * cos i - z_orbital * sin i in
  let z1 := y_orbital * sin i + z_orbital * cos i in
  let x_ecliptic := x1 * cos O0 - y1 * sin O0 in
  let y_ecliptic := x1 * sin O0 + y1 * cos O0 in
  let z_ecliptic := z1 in
  let mu := G * M_SUN in
  q1 <- pydiv 2 (r * AU) ;;
  q2 <- pydiv 1 (a * AU) ;;
  v_orbital <- pysqrt (mu * (q1 - q2)) ;;
  let vx_orbital := - v_orbital * sin nu in
  s <- pysqrt (1 - e ^ 2) ;;
  let vy_orbital := v_orbital * s * cos nu in
  let vz_orbital := 0 in
  let vx1 := vx_orbital in
  let vy1 := vy_orbital * cos i - vz_orbital * sin i in
  let vz1 := vy_orbital * sin i + vz_orbital * cos i in
  let vx_ecliptic := vx1 * cos O0 - vy1 * sin O0 in
  let vy_ecliptic := vx1 * sin O0 + vy1 * cos O0 in
  let vz_ecliptic := vz1 in
  Ok {| x := x_ecliptic; y := y_ecliptic; z := z_ecliptic;
        vx := vx_ecliptic; vy := vy_ecliptic; vz := vz_ecliptic;
        distance_sun := r; speed_sun := v_orbital |}.

(** ** [calculate_moon_position] *)

Definition calculate_moon_position
    (md : moon_data) (parent_position : StateVector) (current_time : datetime)
    : result StateVector :=
  let a := moon_semi_major_axis md / AU in
  let period := moon_orbital_period md * DAY_SECONDS in
  let i := radians (moon_inclination md) in
  n <- pydiv (2 * PI) period ;;
  let jd := julian_date current_time in
  let days := days_since_epoch jd in
  let t := days * DAY_SECONDS in
  let M := n * t in
  let x_orbital := a * cos M in
  let y_orbital := a * sin M in
  let z_orbital := 0 in
  let x_ecliptic := x_orbital in
  let y_ecliptic := y_orbital * cos i in
  let z_ecliptic := y_orbital * sin i in
  let x_sun := x parent_position + x_ecliptic in
  let y_sun := y parent_position + y_ecliptic in
  let z_sun := z parent_position + z_ecliptic in
  v_moon <- pydiv (2 * PI * a * AU) period ;;
  let vx_orbital := - v_moon * sin M in
  let vy_orbital := v_moon * cos M in
  let vz_orbital := 0 in
  let vx_ecliptic := vx_orbital in
  let vy_ecliptic := vy_orbital * cos i in
  let vz_ecliptic := vy_orbital * sin i in
  let vx_total := vx parent_position + vx_ecliptic in
  let vy_total := vy parent_position + vy_ecliptic in
  let vz_total := vz parent_position + vz_ecliptic in
  d <- pysqrt (x_sun ^ 2 + y_sun ^ 2 + z_sun ^ 2) ;;
  s <- pysqrt (vx_total ^ 2 + vy_total ^ 2 + vz_total ^ 2) ;;
  Ok {| x := x_sun; y := y_sun; z := z_sun;
        vx := vx_total; vy := vy_total; vz := vz_total;
        distance_sun := d; speed_sun := s |}.

(** ** [calculate_relative_to_earth] and [calculate_distance_to_target] *)

Definition calculate_relative_to_earth
    (body_position earth_position : StateVector) : result relative_motion :=
  let dx := x body_position - x earth_position in
  let dy := y body_position - y earth_position in
  let dz := z body_position - z earth_position in
  distance_earth <- pysqrt (dx ^ 2 + dy ^ 2 + dz ^ 2) ;;
  let dvx := vx body_position - vx earth_position in
  let dvy := vy body_position - vy earth_position in
  let dvz := vz body_position - vz earth_position in
  speed_earth <- pysqrt (dvx ^ 2 + dvy ^ 2 + dvz ^ 2) ;;
  Ok {| distance_earth := distance_earth; speed_earth := speed_earth |}.

Definition calculate_distance_to_target
    (spacecraft_pos target_pos : StateVector) : result R :=
  let dx := x spacecraft_pos - x target_pos in
  let dy := y spacecraft_pos - y target_pos in
  let dz := z spacecraft_pos - z target_pos in
  pysqrt (dx ^ 2 + dy ^ 2 + dz ^ 2).

(** ** [calculate_spacecraft_position] *)

(** The arrival test (lines 207-213): [has_arrived] stays [False] unless
    the arrival text is truthy, parses, and is not after [current_time];
    the bare [except] swallows every parse error. *)
Definition has_arrived (arrival : option string) (current_time : datetime) : bool :=
  match arrival with
  | Some s =>
      if str_truthy s then
        match strptime s with
        | Ok arrival_date => datetime_le arrival_date current_time
        | Raise _ => false
        end
      else false
  | None => false
  end.

(** The same test as [app.py] repeats it on the row [sc] (lines 291-297). *)
Definition app_has_arrived (sc : spacecraft_data) (current_time : datetime) : bool :=
  match arrival_time sc with
  | Some s =>
      if str_truthy s then
        match strptime s with
        | Ok arrival_date => datetime_le arrival_date current_time
        | Raise _ => false
        end
      else false
  | None => false
  end.

(** [(current_time - launch_date).total_seconds() / YEAR_SECONDS]. *)
Definition years_between (current_time launch : datetime) : R :=
  IZR (datetime_sub current_time launch) / 1000000 / YEAR_SECONDS.

(** The distance dispatch (lines 215-286). *)
Definition spacecraft_distance
    (sc : spacecraft_data) (launch : datetime)
    (time_since_launch : R) (arrived : bool) : R :=
  let trajectory := trajectory_type sc in
  if String.eqb (status sc) "inactive" then
    if target_is sc "Jupiter" then 5.2 + time_since_launch * 0.1
    else if target_is sc "Saturn" then 9.5 + time_since_launch * 0.1
    else if target_is sc "Mars" then 1.5 + time_since_launch * 0.05
    else if target_is sc "Interstellar space" then 30 + time_since_launch * 2
    else 1.0 + time_since_launch * 0.5
  else
    if target_is sc "Interstellar space" then
      let years_past_1977 := time_since_launch + IZR (1977 - year launch) in
      40 + years_past_1977 * 3.6
    else if target_is sc "Jupiter" then
      if contains "orbiter" trajectory || arrived then 5.2
      else
        let progress := Rmin (time_since_launch / 6.0) 1.0 in
        1.0 + progress * 4.2
    else if target_is sc "Saturn" then
      if arrived then 9.5
      else
        let progress := Rmin (time_since_launch / 7.0) 1.0 in
        1.0 + progress * 8.5
    else if target_is sc "Mars" then
      if contains "rover" trajectory || contains "lander" trajectory then 1.5
      else
        let progress := Rmin (time_since_launch / 0.55) 1.0 in
        1.0 + progress * 0.5
    else if target_is sc "Sun" then
      let orbital_period := 0.24 in
      let time_in_orbit := pymod time_since_launch orbital_period in
      let phase := (time_in_orbit / orbital_period) * 2 * PI in
      let perihelion := 0.046 in
      let aphelion := 0.73 in
      let semi_major_axis := (perihelion + aphelion) / 2 in
      semi_major_axis * (1 - 0.88 * cos phase)
    else if target_is sc "Europa" || target_is sc "Trojan asteroids"
            || target_is sc "Kuiper Belt" then
      if target_is sc "Europa" then
        let progress := Rmin (time_since_launch / 6.0) 1.0 in
        1.0 + progress * 4.2
      else if target_is sc "Trojan asteroids" then
        let progress := Rmin (time_since_launch / 12.0) 1.0 in
        1.0 + progress * 4.2
      else 30 + time_since_launch * 1
    else 1.0 + time_since_launch * 0.3.

(** Vis-viva speed [sqrt(mu * (2/r - 1/a))], distances in km. *)
Definition vis_viva (current_distance_km semi_major_axis_km : R) : result R :=
  let mu := G * M_SUN in
  q1 <- pydiv 2 current_distance_km ;;
  q2 <- pydiv 1 semi_major_axis_km ;;
  pysqrt (mu * (q1 - q2)).

(** The speed dispatch (lines 295-371). *)
Definition spacecraft_speed
    (sc : spacecraft_data) (target_position earth_position : option pydict)
    (time_since_launch : R) (arrived : bool) (distance_from_sun : R) : result R :=
  let trajectory := trajectory_type sc in
  if String.eqb (status sc) "inactive" then
    if target_is sc "Interstellar space" then
      v <- get_launch_speed sc 16 ;;
      Ok (v * 0.95)
    else Ok (10 + time_since_launch * 0.1)
  else
    if target_is sc "Sun" && String.eqb (name_en sc) "Parker Solar Probe" then
      let perihelion := 0.046 in
      let aphelion := 0.73 in
      let current_distance := distance_from_sun in
      let semi_major_axis := (perihelion + aphelion) / 2 in
      let semi_major_axis_km := semi_major_axis * AU in
      let current_distance_km := current_distance * AU in
      vis_viva current_distance_km semi_major_axis_km
    else if target_is sc "Interstellar space"
            && (contains "Voyager" (name_en sc) || contains "Pioneer" (name_en sc)) then
      base_speed <- get_launch_speed sc 16.5 ;;
      Ok (base_speed * 0.95)
    else if target_is sc "Kuiper Belt" && String.eqb (name_en sc) "New Horizons" then
      Ok 14.5
    else if contains "orbiter" trajectory && dict_truthy target_position then
      match target_position with
      | Some d => Ok (dict_get d "speed_sun" 10)
      | None => Ok 10
      end
    else if contains "rover" trajectory || contains "lander" trajectory then
      if target_is sc "Mars" then Ok 24.1
      else if target_is sc "Jupiter" then Ok 13.1
      else
        match earth_position with
        | Some (e :: d) => Ok (dict_get (e :: d) "speed_sun" 30)
        | _ => Ok 30
        end
    else if arrived then
      if target_is sc "Jupiter" then Ok 13.1
      else if target_is sc "Saturn" then Ok 9.7
      else if target_is sc "Mars" then Ok 24.1
      else Ok 30
    else
      let semi_major_axis := (1.0 + distance_from_sun) / 2 in
      let semi_major_axis_km := semi_major_axis * AU in
      let current_distance_km := distance_from_sun * AU in
      vis_viva current_distance_km semi_major_axis_km.

Section Ambient.

(** The state of the world outside the program, and the instant
    [datetime.now()] reads from it. *)
Variable World : Type.
Variable datetime_now : World -> datetime.

Definition calculate_spacecraft_position
    (w : World) (sc : spacecraft_data)
    (target_position earth_position : option pydict) : result StateVector :=
  launch <- strptime (launch_date sc) ;;
  let current_time := datetime_now w in
  let time_since_launch := years_between current_time launch in
  let arrived := has_arrived (arrival_time sc) current_time in
  let distance_from_sun := spacecraft_distance sc launch time_since_launch arrived in
  let angle := pymod (time_since_launch * 2 * PI) (2 * PI) in
  let x := distance_from_sun * cos angle in
  let y := distance_from_sun * sin angle in
  let z := distance_from_sun * 0.05 * sin angle in
  speed <- spacecraft_speed sc target_position earth_position
             time_since_launch arrived distance_from_sun ;;
  let vx := - speed * sin angle in
  let vy := speed * cos angle in
  let vz := 0 in
  Ok {| x := x; y := y; z := z; vx := vx; vy := vy; vz := vz;
        distance_sun := distance_from_sun; speed_sun := speed |}.

End Ambient.

Arguments calculate_spacecraft_position {World} datetime_now w sc
  target_position earth_position.

(** ** [format_time_since_launch] *)

(** The [days] and [seconds] attributes of a normalised [timedelta] of
    [us] microseconds. *)
Definition timedelta_days (us : Z) : Z := (us / 86400000000)%Z.
Definition timedelta_seconds (us : Z) : Z := (us mod 86400000000 / 1000000)%Z.

Record time_since_launch : Type := mk_time_since_launch {
  years : Z;
  days : Z;
  hours : Z
}.

Section AmbientFormat.

Variable World : Type.
Variable datetime_now : World -> datetime.

Definition format_time_since_launch (w : World) (launch_date_str : string)
    : result time_since_launch :=
  launch_date <- strptime launch_date_str ;;
  let current_date := datetime_now w in
  let delta := datetime_sub current_date launch_date in
  let years := (timedelta_days delta / 365)%Z in
  let days := (timedelta_days delta mod 365)%Z in
  let hours := (timedelta_seconds delta / 3600)%Z in
  Ok {| years := years; days := days; hours := hours |}.

End AmbientFormat.

Arguments format_time_since_launch {World} datetime_now w launch_date_str.

(** ** The target-distance block of [get_solar_system_data] *)

(** [target_mapping.get(target_body)]: the planet a target body is
    looked up under, [None] for bodies that are not planets and for
    names the table does not hold. *)
Definition target_mapping_get (target : string) : option string :=
  if String.eqb target "Jupiter" then Some "Jupiter"%string
  else if String.eqb target "Saturn" then Some "Saturn"%string
  else if String.eqb target "Mars" then Some "Mars"%string
  else if String.eqb target "Sun" then None
  else if String.eqb target "Europa" then Some "Jupiter"%string
  else if String.eqb target "Interstellar space" then None
  else if String.eqb target "Trojan asteroids" then None
  else if String.eqb target "Kuiper Belt" then None
  else None.

(** [next((p for p in planets if p['name_en'] == name), None)], the
    planets being given with their computed states. *)
Fixpoint find_planet (planets : list (string * StateVector)) (name : string)
    : option (string * StateVector) :=
  match planets with
  | [] => None
  | p :: rest => if String.eqb (fst p) name then Some p else find_planet rest name
  end.

(** The two entries the block adds to [spacecraft_info]. *)
Record target_info : Type := mk_target_info {
  target_distance : option R;
  target_position_known : bool
}.

(** Lines 286-333: [None] when the block is skipped (the craft is not
    active), else the two entries. *)
Definition spacecraft_target_info
    (sc : spacecraft_data) (current_time : datetime)
    (planets : list (string * StateVector)) (position : StateVector)
    : result (option target_info) :=
  if String.eqb (status sc) "active" then
    let arrived := app_has_arrived sc current_time in
    match target_body sc with
    | Some target =>
        if negb arrived && str_truthy target then
          let planet_name_en := target_mapping_get target in
          let target_planet :=
            match planet_name_en with
            | Some name => if str_truthy name then find_planet planets name else None
            | None => None
            end in
          match target_planet with
          | Some p =>
              distance_to_target_au <- calculate_distance_to_target position (snd p) ;;
              Ok (Some {| target_distance := Some distance_to_target_au;
                          target_position_known := true |})
          | None =>
              Ok (Some {| target_distance := None; target_position_known := false |})
          end
        else Ok (Some {| target_distance := None; target_position_known := false |})
    | None => Ok (Some {| target_distance := None; target_position_known := false |})
    end
  else Ok None.

(** ** Records and instants used as test inputs *)

(** Rows of the seed catalogue ([init_database.py]). *)
Definition pioneer_10 : spacecraft_data :=
  {| launch_date := "1972-03-02"; target_body := Some "Interstellar space";
     status := "inactive"; trajectory_type := "flyby"; name_en := "Pioneer 10";
     launch_speed := Val 14.3; arrival_time := Some "1983-06-13" |}.

Definition galileo : spacecraft_data :=
  {| launch_date := "1989-10-18"; target_body := Some "Jupiter";
     status := "inactive"; trajectory_type := "orbiter"; name_en := "Galileo";
     launch_speed := Val 13.6; arrival_time := Some "1995-12-07" |}.

Definition lucy : spacecraft_data :=
  {| launch_date := "2021-10-16"; target_body := Some "Trojan asteroids";
     status := "active"; trajectory_type := "flyby"; name_en := "Lucy";
     launch_speed := Val 12.9; arrival_time := Some "2033-03-03" |}.

(** An inactive interstellar probe launched at 16.3 km/s. *)
Definition interstellar_probe : spacecraft_data :=
  {| launch_date := "1977-08-20"; target_body := Some "Interstellar space";
     status := "inactive"; trajectory_type := "flyby"; name_en := "Probe";
     launch_speed := Val 16.3; arrival_time := None |}.

(** Rows whose date columns hold text that is not a date. *)
Definition galileo_bad_launch : spacecraft_data :=
  {| launch_date := "18 Oct 1989"; target_body := Some "Jupiter";
     status := "inactive"; trajectory_type := "orbiter"; name_en := "Galileo";
     launch_speed := Val 13.6; arrival_time := Some "1995-12-07" |}.

Definition galileo_bad_arrival : spacecraft_data :=
  {| launch_date := "1989-10-18"; target_body := Some "Jupiter";
     status := "inactive"; trajectory_type := "orbiter"; name_en := "Galileo";
     launch_speed := Val 13.6; arrival_time := Some "December 1995" |}.

(** The row [sc] with its [arrival_time] column replaced. *)
Definition with_arrival_time (sc : spacecraft_data) (a : option string)
    : spacecraft_data :=
  {| launch_date := launch_date sc; target_body := target_body sc;
     status := status sc; trajectory_type := trajectory_type sc;
     name_en := name_en sc; launch_speed := launch_speed sc;
     arrival_time := a |}.

Definition noon_2024_01_01 : datetime := mk_datetime 2024 1 1 12 0 0 0.
Definition noon_2025_01_01 : datetime := mk_datetime 2025 1 1 12 0 0 0.
Definition J2000 : datetime := mk_datetime 2000 1 1 12 0 0 0.

(** A world that is nothing but its clock. *)
Definition clock_world : Type := datetime.
Definition clock_now (w : clock_world) : datetime := w.

(** Earth's elements in the seed catalogue, and the same with another
    argument of perihelion. *)
Definition earth_elements (perihelion : R) : orbital_elements :=
  {| semi_major_axis := 1.0; eccentricity := 0.0167086;
     inclination := 0.00005; orbital_period := 1.000017;
     mean_anomaly_0 := 358.617; perihelion_0 := perihelion;
     ascending_node_0 := 0.0 |}.

(** The spec's relative-motion formulas: the Euclidean norm of a
    difference of triples. *)
Definition norm3 (a b c : R) : R := sqrt (a * a + b * b + c * c).

Definition position_gap (A B : StateVector) : R :=
  norm3 (x A - x B) (y A - y B) (z A - z B).

Definition velocity_gap (A B : StateVector) : R :=
  norm3 (vx A - vx B) (vy A - vy B) (vz A - vz B).

(** The six components of the state [s] are at most [b] in absolute
    value. *)
Definition state_within (b : R) (s : StateVector) : Prop :=
  Rabs (x s) <= b /\ Rabs (y s) <= b /\ Rabs (z s) <= b
  /\ Rabs (vx s) <= b /\ Rabs (vy s) <= b /\ Rabs (vz s) <= b.

(** A moon of the seed catalogue without its inclination, and a parent
    at rest. *)
Definition moon_of_earth : moon_data :=
  {| moon_semi_major_axis := 384400; moon_orbital_period := 27.321582;
     moon_inclination := 0 |}.

Definition resting_parent : StateVector :=
  {| x := 1; y := 0; z := 0; vx := 0; vy := 0; vz := 0;
     distance_sun := 1; speed_sun := 0 |}.

(** Two states of the ecliptic plane, three and four AU from the Sun. *)
Definition state_on_x_axis : StateVector :=
  {| x := 3; y := 0; z := 0; vx := 0; vy := 17; vz := 0;
     distance_sun := 3; speed_sun := 17 |}.

Definition state_on_y_axis : StateVector :=
  {| x := 0; y := 4; z := 0; vx := -15; vy := 0; vz := 0;
     distance_sun := 4; speed_sun := 15 |}.

(** Mean anomaly [n * t] and orbital speed [2 pi a AU / periodSeconds] of a
    moon, with [a] in AU, as the spec writes them. *)
Definition moon_mean_anomaly (md : moon_data) (t : datetime) : R :=
  2 * PI / (moon_orbital_period md * DAY_SECONDS)
  * (days_since_epoch (julian_date t) * DAY_SECONDS).

Definition moon_orbital_speed (md : moon_data) : R :=
  2 * PI * (moon_semi_major_axis md / AU) * AU
  / (moon_orbital_period md * DAY_SECONDS).

(** The field ranges every [datetime] object satisfies. *)
Definition valid_datetime (d : datetime) : Prop :=
  (1 <= year d
  /\ 1 <= month d <= 12
  /\ 1 <= day d <= days_in_month (year d) (month d)
  /\ 0 <= hour d < 24
  /\ 0 <= minute d < 60
  /\ 0 <= second d < 60
  /\ 0 <= microsecond d < 1000000)%Z.

(** Number of days of year [y]. *)
Definition year_length (y : Z) : Z := (if is_leap y then 366 else 365)%Z.

(** A quarter of a Julian year after the launch of Galileo. *)
Definition quarter_year_after_galileo : datetime := mk_datetime 1990 1 17 7 30 0 0.

(** The value of one Newton step, and of [n] steps, where no divisor
    vanishes. *)
Definition newton_next (e M E : R) : R :=
  E - (E - e * sin E - M) / (1 - e * cos E).

Fixpoint iter_next (n : nat) (e M E : R) : R :=
  match n with
  | O => E
  | S k => iter_next k e M (newton_next e M E)
  end.

(** The mean anomaly the planet engine computes. *)
Definition planet_mean_anomaly (oe : orbital_elements) (t : datetime) : R :=
  radians (mean_anomaly_0 oe)
  + 2 * PI / (orbital_period oe * YEAR_SECONDS)
    * (days_since_epoch (julian_date t) * DAY_SECONDS).

(** The state the planet engine builds from the solved anomalies. *)
Definition planet_state (oe : orbital_elements) (E nu : R) : StateVector :=
  let a := semi_major_axis oe in
  let e := eccentricity oe in
  let i := radians (inclination oe) in
  let O0 := radians (ascending_node_0 oe) in
  let r := orbit_radius a e E in
  let v := sqrt (G * M_SUN * (2 / (r * AU) - 1 / (a * AU))) in
  let s := sqrt (1 - e ^ 2) in
  {| x := r * cos nu * cos O0 - (r * sin nu * cos i - 0 * sin i) * sin O0;
     y := r * cos nu * sin O0 + (r * sin nu * cos i - 0 * sin i) * cos O0;
     z := r * sin nu * sin i + 0 * cos i;
     vx := - v * sin nu * cos O0 - (v * s * cos nu * cos i - 0 * sin i) * sin O0;
     vy := - v * sin nu * sin O0 + (v * s * cos nu * cos i - 0 * sin i) * cos O0;
     vz := v * s * cos nu * sin i + 0 * cos i;
     distance_sun := r; speed_sun := v |}.

(** The state the moon engine builds, given the mean anomaly [M]. *)
Definition moon_state (md : moon_data) (parent : StateVector) (M : R) : StateVector :=
  let a := moon_semi_major_axis md / AU in
  let i := radians (moon_inclination md) in
  let v := 2 * PI * a * AU / (moon_orbital_period md * DAY_SECONDS) in
  let xs := x parent + a * cos M in
  let ys := y parent + a * sin M * cos i in
  let zs := z parent + a * sin M * sin i in
  let vxt := vx parent + - v * sin M in
  let vyt := vy parent + v * cos M * cos i in
  let vzt := vz parent + v * cos M * sin i in
  {| x := xs; y := ys; z := zs; vx := vxt; vy := vyt; vz := vzt;
     distance_sun := sqrt (xs ^ 2 + ys ^ 2 + zs ^ 2);
     speed_sun := sqrt (vxt ^ 2 + vyt ^ 2 + vzt ^ 2) |}.

(** The target names the two dispatches know. *)
Definition known_targets : list string :=
  ["Jupiter"; "Saturn"; "Mars"; "Interstellar space"; "Sun"; "Europa";
   "Trojan asteroids"; "Kuiper Belt"]%string.

(** More rows of the seed catalogue. *)
Definition juno : spacecraft_data :=
  {| launch_date := "2011-08-05"; target_body := Some "Jupiter";
     status := "active"; trajectory_type := "orbiter"; name_en := "Juno";
     launch_speed := Val 13.1; arrival_time := Some "2016-07-04" |}.

Definition parker_solar_probe : spacecraft_data :=
  {| launch_date := "2018-08-12"; target_body := Some "Sun";
     status := "active"; trajectory_type := "flyby";
     name_en := "Parker Solar Probe";
     launch_speed := Val 12.0; arrival_time := None |}.

Definition europa_clipper : spacecraft_data :=
  {| launch_date := "2024-10-14"; target_body := Some "Europa";
     status := "active"; trajectory_type := "orbiter";
     name_en := "Europa Clipper";
     launch_speed := Val 13.0; arrival_time := Some "2030-04-11" |}.

(** A row for a craft still to be launched, with no target. *)
Definition planned_probe : spacecraft_data :=
  {| launch_date := "2030-01-01"; target_body := None;
     status := "active"; trajectory_type := "flyby"; name_en := "Planned";
     launch_speed := Val 11.0; arrival_time := None |}.

(** A planet list holding one planet. *)
Definition jupiter_only : list (string * StateVector) :=
  [("Jupiter"%string,
    {| x := 5; y := 0; z := 0; vx := 0; vy := 13; vz := 0;
       distance_sun := 5; speed_sun := 13 |})].

(** * Properties *)

(** ** The calendar model on known dates *)

Example strptime_iso :
  strptime "1977-09-05" = Ok (mk_datetime 1977 9 5 0 0 0 0).
Proof. reflexivity. Qed.

Example strptime_short_fields :
  strptime "2021-2-8" = Ok (mk_datetime 2021 2 8 0 0 0 0).
Proof. reflexivity. Qed.

Example strptime_leap_day :
  strptime "2024-02-29" = Ok (mk_datetime 2024 2 29 0 0 0 0)
  /\ strptime "2023-02-29" = Raise ValueError.
Proof. split; reflexivity. Qed.

Example strptime_trailing_text :
  strptime "2020-01-35" = Raise ValueError
  /\ strptime "2020-01-01T00:00" = Raise ValueError.
Proof. split; reflexivity. Qed.

Example strptime_empty : strptime "" = Raise ValueError.
Proof. reflexivity. Qed.

Example toordinal_2000 :
  toordinal (mk_datetime 2000 1 1 0 0 0 0) = 730120%Z.
Proof. reflexivity. Qed.

Example julian_day_number_J2000 :
  julian_day_number (mk_datetime 2000 1 1 12 0 0 0) = 2451545%Z.
Proof. reflexivity. Qed.

(** ** Order of instants *)

Section CalendarOrder.

Local Open Scope Z_scope.

Lemma days_before_year_succ (y : Z) :
  days_before_year (y + 1) = days_before_year y + year_length y.
Proof.
  unfold days_before_year, year_length, is_leap.
  replace (y + 1 - 1) with y by lia.
  destruct (Z.eqb_spec (y mod 4) 0) as [H4|H4];
  destruct (Z.eqb_spec (y mod 100) 0) as [H100|H100];
  destruct (Z.eqb_spec (y mod 400) 0) as [H400|H400];
  cbn [andb orb negb]; Z.div_mod_to_equations; lia.
Qed.

Lemma days_before_year_mono (y1 y2 : Z) :
  y1 <= y2 -> days_before_year y1 <= days_before_year y2.
Proof.
  intros H. unfold days_before_year. Z.div_mod_to_equations. lia.
Qed.

Lemma month_cases (m : Z) :
  1 <= m <= 12 ->
  m = 1 \/ m = 2 \/ m = 3 \/ m = 4 \/ m = 5 \/ m = 6 \/ m = 7 \/ m = 8
  \/ m = 9 \/ m = 10 \/ m = 11 \/ m = 12.
Proof. lia. Qed.

Ltac each_month H :=
  destruct (month_cases _ H) as
    [->|[->|[->|[->|[->|[->|[->|[->|[->|[->|[->| ->]]]]]]]]]]].


Lemma month_fits_in_year (y m : Z) :
  1 <= m <= 12 -> days_before_month y m + days_in_month y m <= year_length y.
Proof.
  intros H. unfold days_before_month, days_in_month, year_length.
  each_month H; cbn; destruct (is_leap y); cbn; lia.
Qed.

Lemma month_before_month (y m1 m2 : Z) :
  1 <= m1 -> m1 < m2 -> m2 <= 12 ->
  days_before_month y m1 + days_in_month y m1 <= days_before_month y m2.
Proof.
  intros H1 H12 H2.
  assert (C1 : 1 <= m1 <= 12) by lia. assert (C2 : 1 <= m2 <= 12) by lia.
  unfold days_before_month, days_in_month.
  each_month C1; each_month C2; try lia; cbn; destruct (is_leap y); cbn; lia.
Qed.

Lemma days_before_month_nonneg (y m : Z) :
  1 <= m <= 12 -> 0 <= days_before_month y m.
Proof.
  intros H. unfold days_before_month.
  each_month H; cbn; destruct (is_leap y); cbn; lia.
Qed.

(** The ordinal of a date orders dates as their (year, month, day)
    triples. *)
Lemma toordinal_year_lt (a b : datetime) :
  valid_datetime a -> valid_datetime b ->
  year a < year b -> toordinal a < toordinal b.
Proof.
  intros (Hya & Hma & Hda & _) (Hyb & Hmb & Hdb & _) Hlt. unfold toordinal.
  pose proof (month_fits_in_year (year a) (month a) Hma).
  pose proof (days_before_year_succ (year a)).
  pose proof (days_before_year_mono (year a + 1) (year b) ltac:(lia)).
  pose proof (days_before_month_nonneg (year b) (month b) Hmb).
  lia.
Qed.

Lemma toordinal_month_lt (a b : datetime) :
  valid_datetime a -> valid_datetime b ->
  year a = year b -> month a < month b -> toordinal a < toordinal b.
Proof.
  intros (Hya & Hma & Hda & _) (Hyb & Hmb & Hdb & _) Hy Hlt. unfold toordinal.
  rewrite <- Hy in *.
  pose proof (month_before_month (year a) (month a) (month b)
                ltac:(lia) Hlt ltac:(lia)).
  lia.
Qed.

Lemma datetime_cmp_chronological (a b : datetime) :
  valid_datetime a -> valid_datetime b ->
  datetime_cmp a b = (to_microseconds a ?= to_microseconds b).
Proof.
  intros Va Vb.
  pose proof (toordinal_year_lt a b Va Vb) as Hy1.
  pose proof (toordinal_year_lt b a Vb Va) as Hy2.
  pose proof (toordinal_month_lt a b Va Vb) as Hm1.
  pose proof (toordinal_month_lt b a Vb Va) as Hm2.
  assert (Hd : year a = year b -> month a = month b ->
               toordinal a - toordinal b = day a - day b).
  { intros E1 E2. unfold toordinal. rewrite E1, E2. lia. }
  destruct Va as (_ & _ & _ & Hha & Hmia & Hsa & Hua).
  destruct Vb as (_ & _ & _ & Hhb & Hmib & Hsb & Hub).
  unfold datetime_cmp, to_microseconds.
  set (oa := toordinal a) in *. set (ob := toordinal b) in *.
  symmetry.
  destruct (Z.compare_spec (year a) (year b)) as [Ey|Ly|Ly];
    [|apply Z.compare_lt_iff; specialize (Hy1 Ly); lia
     |apply Z.compare_gt_iff; specialize (Hy2 Ly); lia].
  destruct (Z.compare_spec (month a) (month b)) as [Em|Lm|Lm];
    [|apply Z.compare_lt_iff; specialize (Hm1 Ey Lm); lia
     |apply Z.compare_gt_iff; specialize (Hm2 (eq_sym Ey) Lm); lia].
  specialize (Hd Ey Em).
  destruct (Z.compare_spec (day a) (day b)) as [Ed|Ld|Ld];
    [|apply Z.compare_lt_iff; lia|apply Z.compare_gt_iff; lia].
  destruct (Z.compare_spec (hour a) (hour b)) as [Eh|Lh|Lh];
    [|apply Z.compare_lt_iff; lia|apply Z.compare_gt_iff; lia].
  destruct (Z.compare_spec (minute a) (minute b)) as [Emi|Lmi|Lmi];
    [|apply Z.compare_lt_iff; lia|apply Z.compare_gt_iff; lia].
  destruct (Z.compare_spec (second a) (second b)) as [Es|Ls|Ls];
    [|apply Z.compare_lt_iff; lia|apply Z.compare_gt_iff; lia].
  destruct (Z.compare_spec (microsecond a) (microsecond b)) as [Eu|Lu|Lu];
    [apply Z.compare_eq_iff; lia|apply Z.compare_lt_iff; lia
    |apply Z.compare_gt_iff; lia].
Qed.

(** [a <= b] in the code is the order of instants on the time line. *)
Lemma datetime_le_chronological (a b : datetime) :
  valid_datetime a -> valid_datetime b ->
  datetime_le a b = true <-> to_microseconds a <= to_microseconds b.
Proof.
  intros Va Vb. unfold datetime_le.
  rewrite (datetime_cmp_chronological a b Va Vb).
  unfold Z.le.
  destruct (to_microseconds a ?= to_microseconds b); split; congruence.
Qed.

Lemma make_date_valid (y m d : Z) (dt : datetime) :
  make_date y m d = Ok dt -> valid_datetime dt.
Proof.
  unfold make_date.
  destruct (_ && _) eqn:E; [|discriminate].
  intros H. injection H as <-.
  repeat (apply andb_prop in E; destruct E as [E ?]).
  unfold valid_datetime. cbn. lia.
Qed.

(** A parsed date is a date of the calendar. *)
Lemma strptime_valid (s : string) (dt : datetime) :
  strptime s = Ok dt -> valid_datetime dt.
Proof.
  unfold strptime.
  destruct (re_ymd s) as [|[[[y m] d] rest] l]; [discriminate|].
  destruct (str_truthy rest); [discriminate | apply make_date_valid].
Qed.

End CalendarOrder.

(** ** Arrival flag *)

Lemma has_arrived_true_inv (a : option string) (now : datetime) :
  has_arrived a now = true ->
  exists s d, a = Some s /\ strptime s = Ok d /\ datetime_le d now = true.
Proof.
  unfold has_arrived.
  destruct a as [s|]; [|discriminate].
  destruct (str_truthy s); [|discriminate].
  destruct (strptime s) as [d|e] eqn:Hp; [|discriminate].
  intros H. exists s, d. auto.
Qed.

Lemma strptime_ok_truthy (s : string) (d : datetime) :
  strptime s = Ok d -> str_truthy s = true.
Proof.
  destruct s; [discriminate | reflexivity].
Qed.

Lemma has_arrived_true_intro (s : string) (d now : datetime) :
  strptime s = Ok d -> datetime_le d now = true ->
  has_arrived (Some s) now = true.
Proof.
  intros Hp Hle. unfold has_arrived.
  rewrite (strptime_ok_truthy _ _ Hp), Hp. exact Hle.
Qed.

Lemma app_has_arrived_eq (sc : spacecraft_data) (now : datetime) :
  app_has_arrived sc now = has_arrived (arrival_time sc) now.
Proof. reflexivity. Qed.

(** C1. The arrival flag, as the core computes it and as [app.py]
    recomputes it, is true exactly when the arrival text is present,
    parses as a [%Y-%m-%d] date, and that date is not after the
    evaluation instant, in the order of [datetime] values, which for
    the reading of a clock is the order of instants on the time line;
    a missing arrival text or a parse failure gives false. *)
Theorem has_arrived_iff (sc : spacecraft_data) (now : datetime) :
  (has_arrived (arrival_time sc) now = true <->
     exists s d, arrival_time sc = Some s /\ strptime s = Ok d
                 /\ datetime_le d now = true)
  /\ (app_has_arrived sc now = true <->
     exists s d, arrival_time sc = Some s /\ strptime s = Ok d
                 /\ datetime_le d now = true)
  /\ (valid_datetime now ->
      (has_arrived (arrival_time sc) now = true <->
         exists s d, arrival_time sc = Some s /\ strptime s = Ok d
                     /\ (to_microseconds d <= to_microseconds now)%Z))
  /\ (arrival_time sc = None -> has_arrived (arrival_time sc) now = false)
  /\ (forall s e, arrival_time sc = Some s -> strptime s = Raise e ->
        has_arrived (arrival_time sc) now = false).
Proof.
  assert (Hiff : has_arrived (arrival_time sc) now = true <->
     exists s d, arrival_time sc = Some s /\ strptime s = Ok d
                 /\ datetime_le d now = true).
  { split.
    - apply has_arrived_true_inv.
    - intros (s & d & Ha & Hp & Hle). rewrite Ha.
      eapply has_arrived_true_intro; eauto. }
  split; [exact Hiff|]. split; [rewrite app_has_arrived_eq; exact Hiff|].
  split; [|split].
  - intros Vnow. rewrite Hiff. split.
    + intros (s & d & Ha & Hp & Hle). exists s, d. repeat split; auto.
      apply (datetime_le_chronological d now (strptime_valid s d Hp) Vnow).
      exact Hle.
    + intros (s & d & Ha & Hp & Hle). exists s, d. repeat split; auto.
      apply (datetime_le_chronological d now (strptime_valid s d Hp) Vnow).
      exact Hle.
  - intros ->. reflexivity.
  - intros s e -> Hp. unfold has_arrived. rewrite Hp.
    destruct (str_truthy s); reflexivity.
Qed.

Lemma has_arrived_iff_witness :
  has_arrived (arrival_time pioneer_10) noon_2024_01_01 = true
  /\ has_arrived (arrival_time lucy) noon_2024_01_01 = false
  /\ has_arrived (arrival_time galileo_bad_arrival) noon_2024_01_01 = false.
Proof.
  split; [|split].
  - apply (proj2 (proj1 (proj2 (proj2 (has_arrived_iff pioneer_10 noon_2024_01_01)))
                    ltac:(unfold valid_datetime; cbn; lia))).
    exists "1983-06-13"%string, (mk_datetime 1983 6 13 0 0 0 0).
    repeat split; try reflexivity. discriminate.
  - destruct (has_arrived (arrival_time lucy) noon_2024_01_01) eqn:E; [|reflexivity].
    apply (proj1 (proj1 (has_arrived_iff lucy noon_2024_01_01))) in E.
    destruct E as (s & d & Hs & Hp & Hle).
    injection Hs as <-. vm_compute in Hp. injection Hp as <-. discriminate.
  - apply (proj2 (proj2 (proj2 (proj2 (has_arrived_iff galileo_bad_arrival noon_2024_01_01))))
             "December 1995"%string ValueError); reflexivity.
Defined.

(** ** Unparsable dates *)

Lemma make_date_raises (y m d : Z) (e : exn) :
  make_date y m d = Raise e -> e = ValueError.
Proof.
  unfold make_date.
  destruct (_ && _); [discriminate | congruence].
Qed.

(** [strptime] raises nothing but [ValueError]. *)
Lemma strptime_raises (s : string) (e : exn) :
  strptime s = Raise e -> e = ValueError.
Proof.
  unfold strptime.
  destruct (re_ymd s) as [|[[[y m] d] rest] l]; [congruence|].
  destruct (str_truthy rest); [congruence | apply make_date_raises].
Qed.

Lemma spacecraft_distance_ignores_arrival_text
    (sc : spacecraft_data) (a : option string) (l : datetime) (t : R) (b : bool) :
  spacecraft_distance (with_arrival_time sc a) l t b = spacecraft_distance sc l t b.
Proof. destruct sc; reflexivity. Qed.

Lemma spacecraft_speed_ignores_arrival_text
    (sc : spacecraft_data) (a : option string) (tp ep : option pydict)
    (t : R) (b : bool) (d : R) :
  spacecraft_speed (with_arrival_time sc a) tp ep t b d = spacecraft_speed sc tp ep t b d.
Proof. destruct sc; reflexivity. Qed.

Section Spacecraft.

Variable World : Type.
Variable datetime_now : World -> datetime.

Local Abbreviation position := (calculate_spacecraft_position datetime_now).

(** The estimator on a row whose launch date parses. *)
Lemma spacecraft_position_unfold
    (w : World) (sc : spacecraft_data) (tp ep : option pydict) (launch : datetime) :
  strptime (launch_date sc) = Ok launch ->
  position w sc tp ep =
    (let t := years_between (datetime_now w) launch in
     let arrived := has_arrived (arrival_time sc) (datetime_now w) in
     let d := spacecraft_distance sc launch t arrived in
     let angle := pymod (t * 2 * PI) (2 * PI) in
     speed <- spacecraft_speed sc tp ep t arrived d ;;
     Ok {| x := d * cos angle; y := d * sin angle; z := d * 0.05 * sin angle;
           vx := - speed * sin angle; vy := speed * cos angle; vz := 0;
           distance_sun := d; speed_sun := speed |}).
Proof.
  intros Hl. unfold calculate_spacecraft_position. rewrite Hl. reflexivity.
Qed.

(** C2, as the code has it.  An arrival text that does not parse is
    taken as "not yet arrived": the flag is false and the call returns
    what it returns for the same row without arrival text, so no parse
    error leaves the estimator.  A launch date that does not parse makes
    the call raise [ValueError]. *)
Theorem unparsable_dates
    (w : World) (sc : spacecraft_data) (tp ep : option pydict) :
  (forall s e, arrival_time sc = Some s -> strptime s = Raise e ->
     has_arrived (arrival_time sc) (datetime_now w) = false
     /\ position w sc tp ep = position w (with_arrival_time sc None) tp ep)
  /\ (forall e, strptime (launch_date sc) = Raise e ->
        position w sc tp ep = Raise ValueError).
Proof.
  split.
  - intros s e Ha Hp.
    assert (Hf : has_arrived (arrival_time sc) (datetime_now w) = false).
    { rewrite Ha. unfold has_arrived. rewrite Hp.
      destruct (str_truthy s); reflexivity. }
    split; [exact Hf|].
    unfold calculate_spacecraft_position.
    replace (launch_date (with_arrival_time sc None)) with (launch_date sc)
      by (destruct sc; reflexivity).
    destruct (strptime (launch_date sc)) as [launch|e']; [|reflexivity].
    cbn [bind]. rewrite Hf.
    replace (arrival_time (with_arrival_time sc None)) with (@None string)
      by reflexivity.
    cbn [has_arrived].
    rewrite spacecraft_distance_ignores_arrival_text,
            spacecraft_speed_ignores_arrival_text.
    reflexivity.
  - intros e Hl. unfold calculate_spacecraft_position.
    rewrite Hl. cbn [bind]. f_equal. eapply strptime_raises; eauto.
Qed.


(** C10. Whatever branch of the distance and speed dispatch is taken, a
    returned state has [vz = 0], while its [z] is the distance times
    [0.05 sin angle]. *)
Theorem spacecraft_velocity_in_ecliptic
    (w : World) (sc : spacecraft_data) (tp ep : option pydict) (sv : StateVector) :
  position w sc tp ep = Ok sv ->
  vz sv = 0
  /\ exists launch, strptime (launch_date sc) = Ok launch
     /\ z sv = distance_sun sv * 0.05
               * sin (pymod (years_between (datetime_now w) launch * 2 * PI) (2 * PI)).
Proof.
  unfold calculate_spacecraft_position.
  destruct (strptime (launch_date sc)) as [launch|e]; [|discriminate].
  cbn [bind].
  destruct (spacecraft_speed _ _ _ _ _ _) as [speed|e]; [|discriminate].
  cbn [bind]. intros H. injection H as <-.
  split; [reflexivity|].
  exists launch. split; reflexivity.
Qed.

End Spacecraft.

Lemma unparsable_dates_witness :
  has_arrived (arrival_time galileo_bad_arrival) noon_2024_01_01 = false
  /\ calculate_spacecraft_position clock_now noon_2024_01_01 galileo_bad_arrival None None
     = calculate_spacecraft_position clock_now noon_2024_01_01
         (with_arrival_time galileo_bad_arrival None) None None.
Proof.
  apply (proj1 (unparsable_dates _ clock_now noon_2024_01_01 galileo_bad_arrival None None)
           "December 1995"%string ValueError); reflexivity.
Defined.

(** C2, as stated, fails: a launch date that does not parse raises out
    of the estimator. *)
Lemma unparsable_launch_date_raises :
  strptime (launch_date galileo_bad_launch) = Raise ValueError
  /\ calculate_spacecraft_position clock_now noon_2024_01_01
       galileo_bad_launch None None = Raise ValueError.
Proof. split; reflexivity. Qed.


Lemma spacecraft_velocity_in_ecliptic_witness :
  exists sv,
    calculate_spacecraft_position clock_now noon_2024_01_01 galileo None None = Ok sv
    /\ vz sv = 0.
Proof.
  eexists. split.
  - reflexivity.
  - apply (spacecraft_velocity_in_ecliptic _ clock_now noon_2024_01_01 galileo None None).
    reflexivity.
Defined.

(** Evaluate the calendar arithmetic of a goal, leaving the reals alone. *)
Ltac eval_elapsed :=
  repeat match goal with
  | |- context [datetime_sub ?a ?b] =>
      let v := eval vm_compute in (datetime_sub a b) in
      change (datetime_sub a b) with v
  end.


(** ** A position out of the ecliptic plane *)

Lemma quarter_year_elapsed :
  years_between quarter_year_after_galileo (mk_datetime 1989 10 18 0 0 0 0) = 0.25.
Proof.
  unfold years_between. eval_elapsed. unfold YEAR_SECONDS, DAY_SECONDS. lra.
Qed.

Lemma pymod_small (r m : R) : 0 <= r < m -> pymod r m = r.
Proof.
  intros [H0 Hm]. unfold pymod.
  assert (Hq : 0 <= r / m < 1).
  { split.
    - apply Rmult_le_pos; [lra|]. apply Rlt_le, Rinv_0_lt_compat. lra.
    - apply (Rmult_lt_reg_r m); [lra|]. unfold Rdiv.
      rewrite Rmult_assoc, Rinv_l by lra. lra. }
  rewrite <- (Int_part_spec (r / m) 0) by (simpl; lra).
  simpl. lra.
Qed.

(** The position leaves the ecliptic plane while the velocity does not:
    a quarter of a year after launch the angle is [PI / 2]. *)
Lemma spacecraft_z_can_be_nonzero :
  exists sv,
    calculate_spacecraft_position clock_now quarter_year_after_galileo
      galileo None None = Ok sv
    /\ z sv <> 0 /\ vz sv = 0.
Proof.
  rewrite (spacecraft_position_unfold _ clock_now _ galileo None None
             (mk_datetime 1989 10 18 0 0 0 0) eq_refl).
  unfold clock_now. rewrite quarter_year_elapsed.
  eexists. split; [reflexivity|].
  cbn [z vz]. split; [|reflexivity].
  pose proof PI_RGT_0 as Hpi.
  rewrite pymod_small by lra.
  replace (0.25 * 2 * PI) with (PI / 2) by lra.
  rewrite sin_PI2.
  cbv beta iota delta [spacecraft_distance galileo status target_is target_body
    String.eqb Ascii.eqb Bool.eqb].
  lra.
Qed.

(** ** Planets *)

(** C3. Two element records that differ only in [perihelion_0] give the
    same result at every instant: the angle is converted and then never
    used. *)
Theorem perihelion_has_no_influence
    (oe1 oe2 : orbital_elements) (current_time : datetime) :
  semi_major_axis oe1 = semi_major_axis oe2 ->
  eccentricity oe1 = eccentricity oe2 ->
  inclination oe1 = inclination oe2 ->
  orbital_period oe1 = orbital_period oe2 ->
  mean_anomaly_0 oe1 = mean_anomaly_0 oe2 ->
  ascending_node_0 oe1 = ascending_node_0 oe2 ->
  calculate_planet_position oe1 current_time
  = calculate_planet_position oe2 current_time.
Proof.
  destruct oe1, oe2. cbn [semi_major_axis eccentricity inclination
    orbital_period mean_anomaly_0 ascending_node_0].
  intros -> -> -> -> -> ->. reflexivity.
Qed.

Lemma perihelion_has_no_influence_witness :
  calculate_planet_position (earth_elements 102.9) noon_2024_01_01
  = calculate_planet_position (earth_elements 0) noon_2024_01_01.
Proof.
  apply (perihelion_has_no_influence (earth_elements 102.9) (earth_elements 0)
           noon_2024_01_01); reflexivity.
Defined.

(** ** Square roots that cannot fail *)

Lemma pysqrt_nonneg (r : R) : 0 <= r -> pysqrt r = Ok (sqrt r).
Proof.
  intros H. unfold pysqrt. destruct (Rlt_dec r 0); [lra | reflexivity].
Qed.

Lemma pydiv_nonzero (a b : R) : b <> 0 -> pydiv a b = Ok (a / b).
Proof.
  intros H. unfold pydiv. destruct (Req_dec_T b 0); [contradiction | reflexivity].
Qed.

Lemma sum_squares_nonneg (a b c : R) : 0 <= a ^ 2 + b ^ 2 + c ^ 2.
Proof. nra. Qed.

Lemma sum_squares_norm3 (a b c : R) : sqrt (a ^ 2 + b ^ 2 + c ^ 2) = norm3 a b c.
Proof. unfold norm3. f_equal. ring. Qed.

Lemma norm3_zero : norm3 0 0 0 = 0.
Proof.
  unfold norm3. replace (0 * 0 + 0 * 0 + 0 * 0) with 0 by ring. apply sqrt_0.
Qed.

Lemma norm3_opp (a b c : R) : norm3 (- a) (- b) (- c) = norm3 a b c.
Proof. unfold norm3. f_equal. ring. Qed.

(** ** Relative motion *)

(** The value of the calculator over the reals, where no square leaves
    the float range. *)
Lemma relative_to_earth_value (A B : StateVector) :
  calculate_relative_to_earth A B =
  Ok {| distance_earth := position_gap A B; speed_earth := velocity_gap A B |}.
Proof.
  unfold calculate_relative_to_earth.
  rewrite !pysqrt_nonneg by apply sum_squares_nonneg.
  cbn [bind]. rewrite !sum_squares_norm3. reflexivity.
Qed.

(** C7. What the relative-motion calculator returns is the norm of the
    position difference and the norm of the velocity difference, and it
    does return on states whose components are at most [1e150] in
    absolute value (their squares are then within the float range); a
    state compared with itself is at distance and speed zero; exchanging
    the two states changes nothing in the result. *)
Theorem relative_motion_spec (A B : StateVector) :
  (forall rel, calculate_relative_to_earth A B = Ok rel ->
     distance_earth rel = position_gap A B
     /\ speed_earth rel = velocity_gap A B)
  /\ (state_within 1e150 A -> state_within 1e150 B ->
      exists rel, calculate_relative_to_earth A B = Ok rel)
  /\ calculate_relative_to_earth A A =
    Ok {| distance_earth := 0; speed_earth := 0 |}
  /\ calculate_relative_to_earth B A = calculate_relative_to_earth A B.
Proof.
  split; [|split; [|split]].
  - intros rel H. rewrite relative_to_earth_value in H. injection H as <-.
    split; reflexivity.
  - intros _ _. eexists. apply relative_to_earth_value.
  - rewrite relative_to_earth_value. unfold position_gap, velocity_gap.
    rewrite !Rminus_diag. rewrite norm3_zero. reflexivity.
  - rewrite !relative_to_earth_value. unfold position_gap, velocity_gap.
    f_equal. f_equal.
    + rewrite <- norm3_opp. f_equal; ring.
    + rewrite <- norm3_opp. f_equal; ring.
Qed.

(** A bound on the components of a state given by its fields. *)
Ltac state_within_fields :=
  cbv beta iota delta [state_within x y z vx vy vz
                       state_on_x_axis state_on_y_axis resting_parent];
  repeat split; apply Rabs_le; lra.

Lemma relative_motion_spec_witness :
  exists rel,
    calculate_relative_to_earth state_on_x_axis state_on_y_axis = Ok rel
    /\ distance_earth rel = position_gap state_on_x_axis state_on_y_axis
    /\ speed_earth rel = velocity_gap state_on_x_axis state_on_y_axis.
Proof.
  destruct (proj1 (proj2 (relative_motion_spec state_on_x_axis state_on_y_axis)))
    as [rel H]; [state_within_fields | state_within_fields |].
  exists rel. split; [exact H|].
  exact (proj1 (relative_motion_spec state_on_x_axis state_on_y_axis) rel H).
Defined.

(** ** The inactive interstellar probe *)

Lemma years_between_increasing (now1 now2 launch : datetime) :
  (datetime_sub now1 launch < datetime_sub now2 launch)%Z ->
  years_between now1 launch < years_between now2 launch.
Proof.
  intros H. apply IZR_lt in H.
  unfold years_between, YEAR_SECONDS, DAY_SECONDS. lra.
Qed.

Section Interstellar.

Variable World : Type.
Variable datetime_now : World -> datetime.

Local Abbreviation position := (calculate_spacecraft_position datetime_now).

Lemma inactive_interstellar_value
    (w : World) (sc : spacecraft_data) (tp ep : option pydict)
    (launch : datetime) (v : R) :
  status sc = "inactive"%string ->
  target_body sc = Some "Interstellar space"%string ->
  launch_speed sc = Val v ->
  strptime (launch_date sc) = Ok launch ->
  exists sv,
    position w sc tp ep = Ok sv
    /\ speed_sun sv = v * 0.95
    /\ distance_sun sv = 30 + years_between (datetime_now w) launch * 2.
Proof.
  intros Hs Ht Hv Hl.
  rewrite (spacecraft_position_unfold _ datetime_now w sc tp ep launch Hl).
  unfold spacecraft_speed, spacecraft_distance, target_is, get_launch_speed.
  rewrite Hs, Ht, Hv. cbn.
  eexists. split; [reflexivity|]. split; reflexivity.
Qed.

(** C8. An inactive probe bound for interstellar space, launched at
    16.3 km/s: at every instant its speed is [16.3 * 0.95], and of two
    instants the one with the longer elapsed time since launch gives the
    strictly larger distance from the Sun. *)
Theorem inactive_interstellar_probe
    (w1 w2 : World) (sc : spacecraft_data) (tp1 ep1 tp2 ep2 : option pydict)
    (launch : datetime) :
  status sc = "inactive"%string ->
  target_body sc = Some "Interstellar space"%string ->
  launch_speed sc = Val 16.3 ->
  strptime (launch_date sc) = Ok launch ->
  exists sv1 sv2,
    position w1 sc tp1 ep1 = Ok sv1
    /\ position w2 sc tp2 ep2 = Ok sv2
    /\ speed_sun sv1 = 16.3 * 0.95
    /\ speed_sun sv2 = 16.3 * 0.95
    /\ ((datetime_sub (datetime_now w1) launch
         < datetime_sub (datetime_now w2) launch)%Z ->
        distance_sun sv1 < distance_sun sv2).
Proof.
  intros Hs Ht Hv Hl.
  destruct (inactive_interstellar_value w1 sc tp1 ep1 launch _ Hs Ht Hv Hl)
    as (sv1 & H1 & Hv1 & Hd1).
  destruct (inactive_interstellar_value w2 sc tp2 ep2 launch _ Hs Ht Hv Hl)
    as (sv2 & H2 & Hv2 & Hd2).
  exists sv1, sv2. repeat split; auto.
  intros Hlt. rewrite Hd1, Hd2.
  apply years_between_increasing in Hlt. lra.
Qed.

End Interstellar.

Lemma inactive_interstellar_probe_witness :
  exists sv1 sv2,
    calculate_spacecraft_position clock_now noon_2024_01_01
      interstellar_probe None None = Ok sv1
    /\ calculate_spacecraft_position clock_now noon_2025_01_01
      interstellar_probe None None = Ok sv2
    /\ speed_sun sv1 = 16.3 * 0.95
    /\ speed_sun sv2 = 16.3 * 0.95
    /\ distance_sun sv1 < distance_sun sv2.
Proof.
  destruct (inactive_interstellar_probe _ clock_now noon_2024_01_01 noon_2025_01_01
              interstellar_probe None None None None
              (mk_datetime 1977 8 20 0 0 0 0)
              eq_refl eq_refl eq_refl eq_refl)
    as (sv1 & sv2 & H1 & H2 & Hv1 & Hv2 & Hd).
  exists sv1, sv2. repeat split; auto.
  apply Hd. reflexivity.
Defined.

(** ** The planet engine returns on valid elements *)

Lemma kepler_denominator_pos (e E : R) : -1 < e < 1 -> 0 < 1 - e * cos E.
Proof.
  intros He. pose proof (COS_bound E) as Hc.
  assert (H1 : 0 <= (1 + e) * (1 - cos E)) by (apply Rmult_le_pos; lra).
  destruct (Req_dec_T (cos E) (-1)) as [Hm|Hm].
  - rewrite Hm. lra.
  - assert (H2 : 0 < (1 - e) * (1 + cos E)) by (apply Rmult_lt_0_compat; lra).
    lra.
Qed.

Lemma newton_iter_total (n : nat) (e M : R) :
  -1 < e < 1 -> forall E, exists E', newton_iter n e M E = Ok E'.
Proof.
  intros He. induction n as [|n IH]; intros E.
  - exists E. reflexivity.
  - cbn [newton_iter]. unfold newton_step.
    rewrite pydiv_nonzero by (pose proof (kepler_denominator_pos e E He); lra).
    cbn [bind]. apply IH.
Qed.

Lemma vis_viva_argument_nonneg (a c : R) :
  0 < a -> 0 < c <= 2 ->
  0 <= G * M_SUN * (2 / (a * c * AU) - 1 / (a * AU)).
Proof.
  intros Ha Hc.
  replace (2 / (a * c * AU) - 1 / (a * AU)) with ((2 - c) / (a * c * AU))
    by (unfold AU; field; lra).
  apply Rmult_le_pos.
  - unfold G, M_SUN. lra.
  - apply Rmult_le_pos; [lra|].
    apply Rlt_le, Rinv_0_lt_compat.
    apply Rmult_lt_0_compat; [nra | unfold AU; lra].
Qed.

(** With an eccentricity in [0, 1), a positive semi-major axis and a
    non-zero period, [calculate_planet_position] returns a state, whose
    distance from the Sun is the orbit radius at the solved anomaly
    (over the reals: a period so small that the mean motion leaves the
    float range is not represented). *)
Lemma planet_position_total (oe : orbital_elements) (t : datetime) :
  0 <= eccentricity oe < 1 ->
  0 < semi_major_axis oe ->
  orbital_period oe <> 0 ->
  exists sv E,
    calculate_planet_position oe t = Ok sv
    /\ distance_sun sv = orbit_radius (semi_major_axis oe) (eccentricity oe) E.
Proof.
  intros He Ha Hp.
  assert (Hper : orbital_period oe * YEAR_SECONDS <> 0).
  { unfold YEAR_SECONDS, DAY_SECONDS. intros E. apply Hp. lra. }
  unfold calculate_planet_position.
  rewrite pydiv_nonzero by assumption. cbn [bind].
  match goal with |- context [eccentric_anomaly ?e ?M] =>
    destruct (newton_iter_total 10 e M ltac:(lra) M) as [E HE];
    fold (eccentric_anomaly e M) in HE; rewrite HE
  end.
  cbn [bind]. unfold true_anomaly.
  rewrite !pysqrt_nonneg by lra. cbn [bind].
  pose proof (kepler_denominator_pos (eccentricity oe) E ltac:(lra)) as Hc.
  pose proof (COS_bound E) as Hcos.
  assert (Hr : 0 < orbit_radius (semi_major_axis oe) (eccentricity oe) E).
  { unfold orbit_radius. apply Rmult_lt_0_compat; assumption. }
  rewrite !pydiv_nonzero by (unfold AU; nra). cbn [bind].
  rewrite pysqrt_nonneg.
  2:{ unfold orbit_radius.
      apply vis_viva_argument_nonneg; [assumption | nra]. }
  cbn [bind].
  rewrite pysqrt_nonneg by nra. cbn [bind].
  eexists. exists E. split; reflexivity.
Qed.

Lemma earth_position_exists :
  exists sv, calculate_planet_position (earth_elements 102.9) noon_2024_01_01 = Ok sv.
Proof.
  destruct (planet_position_total (earth_elements 102.9) noon_2024_01_01)
    as (sv & E & H & _); try (cbn; lra).
  exists sv. exact H.
Qed.

(** ** Convergence of the Kepler solve *)

(** Kepler's function [u - e sin u - M] is convex on [0, PI].  The first
    step from the seed [M] overshoots the root [s] and lands in
    [s, PI]; from there the steps decrease to the root, and the ratio
    [w = 0.9 (E - s) / (1 - e cos s)] of the error to the slope at the
    root obeys [w' <= w * w / (1 + w)].  A mean anomaly in (PI, 2 PI) is
    the mirror image of one in (0, PI). *)

Lemma sin_cubic_lower (a : R) : 0 <= a <= 4 -> a - a ^ 3 / 6 <= sin a.
Proof.
  intros [H0 H4]. destruct (pre_sin_bound a 0 H0 H4) as [H _].
  unfold sin_approx, sin_term in H. simpl in H. lra.
Qed.

Lemma cos_quartic_upper (a : R) : -2 <= a <= 2 -> cos a <= 1 - a ^ 2 / 2 + a ^ 4 / 24.
Proof.
  intros [H0 H4]. destruct (pre_cos_bound a 0 H0 H4) as [_ H].
  unfold cos_approx, cos_term in H. simpl in H. lra.
Qed.

Lemma sin_le_arg (a : R) : 0 <= a -> sin a <= a.
Proof.
  intros [H|<-]; [apply Rlt_le, sin_lt_x; exact H | rewrite sin_0; lra].
Qed.

(** [sin] lies below its tangents on [0, PI]. *)
Lemma sin_below_tangent (a b : R) :
  0 <= a <= PI -> 0 <= b <= PI -> sin b <= sin a + cos a * (b - a).
Proof.
  intros Ha Hb.
  destruct (Rtotal_order a b) as [Hlt|[<-|Hgt]]; [| lra |].
  - destruct (MVT_cor2 sin cos a b Hlt (fun c _ => derivable_pt_lim_sin c))
      as (c & Hc & Hac).
    assert (cos c <= cos a) by (apply cos_decr_1; lra).
    assert (cos c * (b - a) <= cos a * (b - a)) by (apply Rmult_le_compat_r; lra).
    lra.
  - destruct (MVT_cor2 sin cos b a Hgt (fun c _ => derivable_pt_lim_sin c))
      as (c & Hc & Hac).
    assert (cos a <= cos c) by (apply cos_decr_1; lra).
    assert (cos a * (a - b) <= cos c * (a - b)) by (apply Rmult_le_compat_r; lra).
    lra.
Qed.

Lemma cos_drop (a b : R) : 0 <= a <= b -> b <= PI -> 0 <= cos a - cos b <= b - a.
Proof.
  intros Ha Hb. split.
  - assert (cos b <= cos a) by (apply cos_decr_1; lra). lra.
  - destruct (proj2 Ha) as [Hlt|<-]; [|lra].
    destruct (MVT_cor2 cos (fun c => - sin c) a b Hlt
                (fun c _ => derivable_pt_lim_cos c)) as (c & Hc & Hac).
    pose proof (SIN_bound c) as Hs.
    assert ((- sin c) * (b - a) >= -1 * (b - a)).
    { apply Rle_ge, Rmult_le_compat_r; lra. }
    lra.
Qed.

Lemma newton_step_next (e M E : R) :
  -1 < e < 1 -> newton_step e M E = Ok (newton_next e M E).
Proof.
  intros He. unfold newton_step.
  rewrite pydiv_nonzero by (pose proof (kepler_denominator_pos e E He); lra).
  reflexivity.
Qed.

Lemma kepler_slope_bounds (e E : R) : 0 <= e <= 0.9 -> 0.1 <= 1 - e * cos E <= 1.9.
Proof.
  intros He. pose proof (COS_bound E) as Hc.
  assert (0 <= e * (1 - cos E)) by (apply Rmult_le_pos; lra).
  assert (0 <= e * (1 + cos E)) by (apply Rmult_le_pos; lra).
  lra.
Qed.

(** A step from the right of the root [s], inside [0, PI]. *)
Lemma step_right (e M s E : R) :
  0 <= e <= 0.9 -> 0 <= s <= E -> E <= PI -> s - e * sin s = M ->
  s <= newton_next e M E <= E
  /\ (newton_next e M E - s) * (1 - e * cos s + 0.9 * (E - s))
     <= 0.9 * (E - s) * (E - s)
  /\ 0 <= E - e * sin E - M <= (1 - e * cos E) * (E - s).
Proof.
  intros He Hs HE HM.
  pose proof (kepler_slope_bounds e s He) as Has.
  pose proof (kepler_slope_bounds e E He) as HaE.
  pose proof (sin_below_tangent s E ltac:(lra) ltac:(lra)) as T1.
  pose proof (sin_below_tangent E s ltac:(lra) ltac:(lra)) as T2.
  pose proof (cos_drop s E ltac:(lra) ltac:(lra)) as Hd.
  set (eps := E - s) in *.
  set (f := E - e * sin E - M).
  set (aE := 1 - e * cos E) in *. set (as_ := 1 - e * cos s) in *.
  assert (Heps : 0 <= eps) by (unfold eps; lra).
  assert (L1 : as_ * eps <= f).
  { unfold f, as_. rewrite <- HM.
    assert (e * sin E <= e * (sin s + cos s * eps)) by (apply Rmult_le_compat_l; lra).
    unfold eps in *. lra. }
  assert (L2 : f <= aE * eps).
  { unfold f, aE. rewrite <- HM.
    assert (e * sin s <= e * (sin E + cos E * (s - E))) by (apply Rmult_le_compat_l; lra).
    unfold eps in *. lra. }
  assert (Hf0 : 0 <= f).
  { assert (0 <= as_ * eps) by (apply Rmult_le_pos; lra). lra. }
  assert (Hq : f / aE <= eps).
  { apply (Rmult_le_reg_r aE); [lra|]. unfold Rdiv.
    rewrite Rmult_assoc, Rinv_l by lra. lra. }
  assert (Hq0 : 0 <= f / aE).
  { apply Rmult_le_pos; [lra|]. apply Rlt_le, Rinv_0_lt_compat. lra. }
  assert (Hnext : newton_next e M E = E - f / aE) by reflexivity.
  rewrite Hnext.
  split; [unfold eps in *; lra|]. split; [|split; lra].
  set (eps' := E - f / aE - s).
  assert (He' : 0 <= eps' <= eps) by (unfold eps', eps in *; lra).
  assert (Hd' : 0 <= aE - as_ <= 0.9 * eps).
  { unfold aE, as_.
    assert (e * (cos s - cos E) <= 0.9 * (cos s - cos E))
      by (apply Rmult_le_compat_r; lra).
    assert (0 <= e * (cos s - cos E)) by (apply Rmult_le_pos; lra).
    lra. }
  assert (Hk : eps' * aE <= eps * (aE - as_)).
  { assert (E1 : eps' * aE = eps * aE - f).
    { unfold eps', eps. field. lra. }
    rewrite E1. replace (eps * (aE - as_)) with (eps * aE - as_ * eps) by ring. lra. }
  set (d := aE - as_) in *.
  assert (Hx : eps' * (0.9 * eps - d) <= eps * (0.9 * eps - d)).
  { apply Rmult_le_compat_r; lra. }
  replace aE with (as_ + d) in Hk by (unfold d; ring).
  lra.
Qed.

(** The bound [W] on [0.9 (E - s) / (1 - e cos s)] becomes [W'] after a
    step, when [W * W <= W' * (1 + W)]. *)
Lemma step_right_bound (e M s E W W' : R) :
  0 <= e <= 0.9 -> 0 <= s <= E -> E <= PI -> s - e * sin s = M ->
  0 <= W -> W * W <= W' * (1 + W) ->
  0.9 * (E - s) <= W * (1 - e * cos s) ->
  s <= newton_next e M E <= PI
  /\ 0.9 * (newton_next e M E - s) <= W' * (1 - e * cos s).
Proof.
  intros He Hs HE HM HW HWW Hu.
  destruct (step_right e M s E He Hs HE HM) as (Hn & Hk & _).
  pose proof (kepler_slope_bounds e s He) as Ha.
  set (a := 1 - e * cos s) in *.
  set (v := 0.9 * (newton_next e M E - s)).
  set (u := 0.9 * (E - s)) in *.
  split; [lra|].
  assert (Hv0 : 0 <= v) by (unfold v; lra).
  assert (Hu0 : 0 <= u) by (unfold u; lra).
  assert (Hvu : v * (a + u) <= u * u).
  { unfold v, u. change (0.9 * (E - s)) with u in Hk. unfold u in Hk. lra. }
  set (U := W * a) in *.
  assert (HU : u <= U) by exact Hu.
  assert (HU0 : 0 <= U) by lra.
  assert (Hmono : u * u * (a + U) <= U * U * (a + u)).
  { assert (0 <= (U - u) * (a * (U + u) + u * U)).
    { apply Rmult_le_pos; [lra|].
      assert (0 <= a * (U + u)) by (apply Rmult_le_pos; lra).
      assert (0 <= u * U) by (apply Rmult_le_pos; lra). lra. }
    lra. }
  assert (H1 : v * (a + U) <= U * U).
  { apply (Rmult_le_reg_r (a + u)); [lra|].
    assert (v * (a + u) * (a + U) <= u * u * (a + U))
      by (apply Rmult_le_compat_r; lra).
    lra. }
  (* v * a * (1 + W) <= W * W * a * a *)
  assert (H2 : v * (1 + W) <= W * W * a).
  { apply (Rmult_le_reg_r a); [lra|]. unfold U in H1. lra. }
  assert (H3 : W * W * a <= W' * (1 + W) * a)
    by (apply Rmult_le_compat_r; lra).
  apply (Rmult_le_reg_r (1 + W)); [lra|]. lra.
Qed.

(** Cauchy-Schwarz on the unit circle. *)
Lemma kepler_first_ratio (e M : R) :
  0 <= e <= 0.9 -> sin M <= 2.3 * (1 - e * cos M).
Proof.
  intros He. set (c := 2.3 * e).
  assert (Hc : 0 <= c <= 2.07) by (unfold c; lra).
  pose proof (sin2_cos2 M) as H1. unfold Rsqr in H1.
  set (X := sin M + c * cos M).
  assert (HX : X * X <= 5.29).
  { assert (E1 : X * X + (cos M - c * sin M) * (cos M - c * sin M)
                 = (1 + c * c) * (sin M * sin M + cos M * cos M))
      by (unfold X; ring).
    rewrite H1 in E1.
    pose proof (Rle_0_sqr (cos M - c * sin M)) as Hsq. unfold Rsqr in Hsq.
    assert (c * c <= 2.07 * 2.07) by (apply Rmult_le_compat; lra).
    lra. }
  assert (X <= 2.3).
  { destruct (Rle_dec X 2.3) as [Hle|Hgt]; [exact Hle|].
    assert (2.3 * 2.3 < X * X) by (apply Rmult_le_0_lt_compat; lra).
    lra. }
  unfold X, c in *. lra.
Qed.

Lemma PI_gt_3 : 3 < PI.
Proof. pose proof PI2_3_2. lra. Qed.

(** The first step, from the seed [M], as the seed plus a ratio. *)
Lemma newton_first (e M : R) :
  newton_next e M M = M + e * sin M / (1 - e * cos M).
Proof. unfold newton_next. unfold Rdiv. ring. Qed.

(** The ratio of the first step is at most [0.9 / (1 - 0.9 c)] where the
    cosine is at most [c]. *)
Lemma first_ratio_interval (e M c b : R) :
  0 <= e <= 0.9 -> 0 <= sin M -> 0 <= cos M <= c -> 0.9 * c < 1 ->
  0.9 <= b * (1 - 0.9 * c) ->
  e * sin M / (1 - e * cos M) <= b.
Proof.
  intros He Hs Hc Hc1 Hb.
  pose proof (kepler_slope_bounds e M He) as Ha.
  pose proof (SIN_bound M) as Hsb.
  assert (Hec : e * cos M <= 0.9 * c).
  { apply Rmult_le_compat; lra. }
  assert (Hes : e * sin M <= 0.9).
  { assert (e * sin M <= 0.9 * 1) by (apply Rmult_le_compat; lra). lra. }
  assert (Hb0 : 0 <= b).
  { destruct (Rle_dec 0 b) as [H|H]; [exact H|].
    assert (b * (1 - 0.9 * c) <= 0).
    { assert (0 <= (- b) * (1 - 0.9 * c)) by (apply Rmult_le_pos; lra). lra. }
    lra. }
  apply (Rmult_le_reg_r (1 - e * cos M)); [lra|].
  unfold Rdiv. rewrite Rmult_assoc, Rinv_l by lra.
  assert (b * (1 - 0.9 * c) <= b * (1 - e * cos M))
    by (apply Rmult_le_compat_l; lra).
  lra.
Qed.

Lemma first_step_below_PI (e M : R) :
  0 <= e <= 0.9 -> 0 <= M <= PI -> newton_next e M M <= PI.
Proof.
  intros He HM. rewrite newton_first.
  pose proof PI_gt_3 as Hpi. pose proof PI_4 as Hpi4.
  pose proof (kepler_slope_bounds e M He) as Ha.
  pose proof (sin_ge_0 M ltac:(lra) ltac:(lra)) as Hs0.
  set (g := e * sin M / (1 - e * cos M)).
  assert (Hg : g * (1 - e * cos M) = e * sin M).
  { unfold g. field. lra. }
  destruct (Rle_dec M (PI / 2)) as [Hlow|Hhigh].
  - assert (Hc0 : 0 <= cos M) by (apply cos_ge_0; lra).
    assert (Hcs : g <= 2.07).
    { pose proof (kepler_first_ratio e M He) as Hr.
      apply (Rmult_le_reg_r (1 - e * cos M)); [lra|]. rewrite Hg.
      assert (e * sin M <= 0.9 * sin M) by (apply Rmult_le_compat_r; lra).
      lra. }
    destruct (Rle_dec M 0.93) as [H1|H1]; [lra|].
    assert (Hcut : forall lo c b, lo <= M -> 0 <= lo <= 2 ->
              1 - lo ^ 2 / 2 + lo ^ 4 / 24 <= c -> 0.9 * c < 1 ->
              0.9 <= b * (1 - 0.9 * c) -> g <= b).
    { intros lo c b Hlo Hlo2 Hcl Hc1 Hb.
      apply (first_ratio_interval e M c b He Hs0); try assumption.
      split; [exact Hc0|].
      pose proof (cos_quartic_upper lo ltac:(lra)) as Hq.
      assert (cos M <= cos lo) by (apply cos_decr_1; lra).
      lra. }
    destruct (Rle_dec M 1.04) as [H2|H2].
    { assert (g <= 1.952) by (apply (Hcut 0.93 0.5988); lra). lra. }
    destruct (Rle_dec M 1.34) as [H3|H3].
    { assert (g <= 1.659) by (apply (Hcut 1.04 0.508); lra). lra. }
    assert (g <= 1.144) by (apply (Hcut 1.34 0.2366); lra). lra.
  - assert (Hc : cos M <= 0) by (apply cos_le_0; lra).
    assert (Hec : 0 <= e * (- cos M)) by (apply Rmult_le_pos; lra).
    assert (Hg0 : 0 <= g).
    { unfold g. apply Rmult_le_pos; [apply Rmult_le_pos; lra|].
      apply Rlt_le, Rinv_0_lt_compat. lra. }
    assert (Hg1 : g <= e * sin M).
    { rewrite <- Hg.
      assert (g * 1 <= g * (1 - e * cos M)) by (apply Rmult_le_compat_l; lra).
      lra. }
    assert (Hs1 : sin M <= PI - M).
    { rewrite <- (sin_PI_x M). apply sin_le_arg. lra. }
    assert (e * sin M <= 1 * sin M) by (apply Rmult_le_compat_r; lra).
    lra.
Qed.

(** The seed [M] of the root [s] lies in [0, s]. *)
Lemma kepler_seed_range (e s : R) :
  0 <= e <= 0.9 -> 0 <= s <= PI -> 0 <= s - e * sin s <= s.
Proof.
  intros He Hs.
  pose proof (sin_ge_0 s ltac:(lra) ltac:(lra)) as H0.
  pose proof (sin_le_arg s ltac:(lra)) as H1.
  assert (0 <= e * sin s) by (apply Rmult_le_pos; lra).
  assert (e * sin s <= 1 * s) by (apply Rmult_le_compat; lra).
  lra.
Qed.

(** The first step lands to the right of the root, not beyond [PI], and
    at most three slopes away from the root. *)
Lemma first_step (e M s : R) :
  0 <= e <= 0.9 -> 0 <= s <= PI -> s - e * sin s = M ->
  s <= newton_next e M M <= PI
  /\ newton_next e M M - s <= 3 * (1 - e * cos s).
Proof.
  intros He Hs HM.
  pose proof PI_gt_3 as Hpi. pose proof PI_4 as Hpi4.
  pose proof (kepler_seed_range e s He Hs) as HMr. rewrite HM in HMr.
  assert (HMpi : 0 <= M <= PI) by lra.
  pose proof (first_step_below_PI e M He HMpi) as Hup.
  rewrite newton_first in *.
  pose proof (kepler_slope_bounds e M He) as Ha.
  pose proof (kepler_slope_bounds e s He) as Has.
  pose proof (sin_ge_0 M ltac:(lra) ltac:(lra)) as HsM.
  pose proof (sin_ge_0 s ltac:(lra) ltac:(lra)) as Hss.
  set (g := e * sin M / (1 - e * cos M)) in *.
  assert (Hg : g * (1 - e * cos M) = e * sin M).
  { unfold g. field. lra. }
  assert (Hes : e * sin s = s - M) by lra.
  (* to the right of the root *)
  assert (Hright : s - M <= g).
  { apply (Rmult_le_reg_r (1 - e * cos M)); [lra|]. rewrite Hg.
    pose proof (sin_below_tangent M s ltac:(lra) ltac:(lra)) as T.
    assert (e * sin s <= e * (sin M + cos M * (s - M)))
      by (apply Rmult_le_compat_l; lra).
    lra. }
  split; [lra|].
  assert (Hcs : g <= 2.3 * e).
  { pose proof (kepler_first_ratio e M He) as Hr.
    apply (Rmult_le_reg_r (1 - e * cos M)); [lra|]. rewrite Hg.
    assert (e * sin M <= e * (2.3 * (1 - e * cos M)))
      by (apply Rmult_le_compat_l; lra).
    lra. }
  destruct (Rle_dec s 1) as [Hs1|Hs1].
  - (* near the perihelion *)
    assert (Hc0 : 0 <= cos s) by (apply cos_ge_0; lra).
    pose proof (sin_cubic_lower s ltac:(lra)) as Hsl.
    pose proof (cos_quartic_upper s ltac:(lra)) as Hcu.
    pose proof (sin_le_arg M ltac:(lra)) as HsMl.
    assert (Hg1 : g * (1 - e) <= e * M).
    { assert (g * (1 - e) <= g * (1 - e * cos M)).
      { apply Rmult_le_compat_l; [lra|].
        pose proof (COS_bound M). 
        assert (e * cos M <= e * 1) by (apply Rmult_le_compat_l; lra). lra. }
      assert (e * sin M <= e * M) by (apply Rmult_le_compat_l; lra).
      lra. }
    (* (g - (s - M)) (1 - e) <= e (s - sin s) *)
    assert (Hd : (g - (s - M)) * (1 - e) <= e * (s - sin s)).
    { lra. }
    assert (Hd2 : e * (s - sin s) <= 0.9 * (s ^ 3 / 6)).
    { apply Rmult_le_compat; try lra.
      pose proof (sin_le_arg s ltac:(lra)). lra. }
    assert (Hd3 : g - (s - M) <= 10 * (0.9 * (s ^ 3 / 6))).
    { assert (0.1 * (g - (s - M)) <= (g - (s - M)) * (1 - e))
        by (rewrite Rmult_comm; apply Rmult_le_compat_l; lra).
      lra. }
    assert (Ha1 : 1 - 0.9 * (1 - s ^ 2 / 2 + s ^ 4 / 24) <= 1 - e * cos s).
    { assert (e * cos s <= 0.9 * cos s) by (apply Rmult_le_compat_r; lra).
      lra. }
    assert (Hpoly : 1.5 * s ^ 3 <= 3 * (1 - 0.9 * (1 - s ^ 2 / 2 + s ^ 4 / 24))).
    { assert (0 <= s * s <= 1) by nra.
      assert (s ^ 4 <= s ^ 2) by nra.
      assert (s ^ 3 <= s ^ 2) by nra.
      destruct (Rle_dec s 0.9) as [H9|H9]; nra. }
    lra.
  - destruct (Rle_dec s (PI / 2)) as [Hs2|Hs2].
    + (* up to the quarter turn *)
      assert (Hc0 : 0 <= cos s) by (apply cos_ge_0; lra).
      assert (Hs1' : sin 1 <= sin s) by (apply sin_incr_1; lra).
      pose proof (sin_cubic_lower 1 ltac:(lra)) as Hsl.
      pose proof (cos_quartic_upper 1 ltac:(lra)) as Hcu.
      assert (Hc1 : cos s <= cos 1) by (apply cos_decr_1; lra).
      assert (e * cos s <= 0.9 * cos s) by (apply Rmult_le_compat_r; lra).
      assert (e * sin s >= e * (5 / 6)).
      { apply Rle_ge, Rmult_le_compat_l; lra. }
      assert (e * (2.3 - 5 / 6) <= 0.9 * (2.3 - 5 / 6))
        by (apply Rmult_le_compat_r; lra).
      lra.
    + (* past the quarter turn *)
      assert (Hc : cos s <= 0) by (apply cos_le_0; lra).
      assert (0 <= e * (- cos s)) by (apply Rmult_le_pos; lra).
      lra.
Qed.


Lemma newton_iter_next (n : nat) (e M : R) :
  -1 < e < 1 -> forall E, newton_iter n e M E = Ok (iter_next n e M E).
Proof.
  intros He. induction n as [|n IH]; intros E; cbn [newton_iter iter_next].
  - reflexivity.
  - rewrite (newton_step_next e M E He). cbn [bind]. apply IH.
Qed.

(** Kepler's equation has a root in [0, PI] for a mean anomaly there. *)
Lemma kepler_root (e M : R) :
  0 <= M <= PI -> exists s, 0 <= s <= PI /\ s - e * sin s = M.
Proof.
  intros HM.
  set (f := fun u : R => u - e * sin u - M).
  assert (Hcont : continuity f).
  { apply derivable_continuous. unfold f. reg. }
  destruct (IVT_cor f 0 PI Hcont) as (s & Hs & Hfs).
  - pose proof PI_RGT_0. lra.
  - unfold f. rewrite sin_0, sin_PI.
    assert (0 <= M * (PI - M)) by (apply Rmult_le_pos; lra).
    lra.
  - exists s. split; [exact Hs|]. unfold f in Hfs. lra.
Qed.

(** Ten steps from the seed, for a mean anomaly in [0, PI]. *)
Lemma kepler_residual_half_turn (e M : R) :
  0 <= e <= 0.9 -> 0 <= M <= PI ->
  0 <= iter_next 10 e M M - e * sin (iter_next 10 e M M) - M < 1e-9.
Proof.
  intros He HM.
  destruct (kepler_root e M HM) as (s & Hs & Hroot).
  pose proof (kepler_slope_bounds e s He) as Ha.
  destruct (first_step e M s He Hs Hroot) as (H1 & H1w).
  cbn [iter_next].
  set (E1 := newton_next e M M) in *.
  assert (B1 : 0.9 * (E1 - s) <= 2.7 * (1 - e * cos s)) by lra.
  destruct (step_right_bound e M s E1 2.7 2 He ltac:(lra) ltac:(lra) Hroot
              ltac:(lra) ltac:(lra) B1) as (H2 & B2).
  set (E2 := newton_next e M E1) in *.
  destruct (step_right_bound e M s E2 2 (4 / 3) He ltac:(lra) ltac:(lra) Hroot
              ltac:(lra) ltac:(lra) B2) as (H3 & B3).
  set (E3 := newton_next e M E2) in *.
  destruct (step_right_bound e M s E3 (4 / 3) 0.77 He ltac:(lra) ltac:(lra) Hroot
              ltac:(lra) ltac:(lra) B3) as (H4 & B4).
  set (E4 := newton_next e M E3) in *.
  destruct (step_right_bound e M s E4 0.77 0.34 He ltac:(lra) ltac:(lra) Hroot
              ltac:(lra) ltac:(lra) B4) as (H5 & B5).
  set (E5 := newton_next e M E4) in *.
  destruct (step_right_bound e M s E5 0.34 0.09 He ltac:(lra) ltac:(lra) Hroot
              ltac:(lra) ltac:(lra) B5) as (H6 & B6).
  set (E6 := newton_next e M E5) in *.
  destruct (step_right_bound e M s E6 0.09 0.008 He ltac:(lra) ltac:(lra) Hroot
              ltac:(lra) ltac:(lra) B6) as (H7 & B7).
  set (E7 := newton_next e M E6) in *.
  destruct (step_right_bound e M s E7 0.008 0.000064 He ltac:(lra) ltac:(lra) Hroot
              ltac:(lra) ltac:(lra) B7) as (H8 & B8).
  set (E8 := newton_next e M E7) in *.
  destruct (step_right_bound e M s E8 0.000064 4.1e-9 He ltac:(lra) ltac:(lra) Hroot
              ltac:(lra) ltac:(lra) B8) as (H9 & B9).
  set (E9 := newton_next e M E8) in *.
  destruct (step_right_bound e M s E9 4.1e-9 1.7e-17 He ltac:(lra) ltac:(lra) Hroot
              ltac:(lra) ltac:(lra) B9) as (H10 & B10).
  set (E10 := newton_next e M E9) in *.
  destruct (step_right e M s E10 He ltac:(lra) ltac:(lra) Hroot) as (_ & _ & Hres).
  pose proof (kepler_slope_bounds e E10 He) as Ha10.
  split; [lra|].
  assert (Heps : 0 <= E10 - s <= 1e-16).
  { split; [lra|].
    assert (1.7e-17 * (1 - e * cos s) <= 1.7e-17 * 1.9)
      by (apply Rmult_le_compat_l; lra).
    lra. }
  assert ((1 - e * cos E10) * (E10 - s) <= 1.9 * 1e-16)
    by (apply Rmult_le_compat; lra).
  lra.
Qed.

Lemma sin_mirror (u : R) : sin (2 * PI - u) = - sin u.
Proof.
  replace (2 * PI - u) with (- u + 2 * PI) by ring.
  rewrite sin_plus, sin_2PI, cos_2PI, sin_neg. ring.
Qed.

Lemma cos_mirror (u : R) : cos (2 * PI - u) = cos u.
Proof.
  replace (2 * PI - u) with (- u + 2 * PI) by ring.
  rewrite cos_plus, sin_2PI, cos_2PI, cos_neg. ring.
Qed.

(** The steps commute with the reflection [u |-> 2 PI - u]. *)
Lemma newton_next_mirror (e M E : R) :
  -1 < e < 1 ->
  newton_next e (2 * PI - M) (2 * PI - E) = 2 * PI - newton_next e M E.
Proof.
  intros He. unfold newton_next. rewrite sin_mirror, cos_mirror.
  pose proof (kepler_denominator_pos e E He). field. lra.
Qed.

Lemma iter_next_mirror (n : nat) (e M : R) :
  -1 < e < 1 ->
  forall E, iter_next n e (2 * PI - M) (2 * PI - E) = 2 * PI - iter_next n e M E.
Proof.
  intros He. induction n as [|n IH]; intros E; cbn [iter_next]; [reflexivity|].
  rewrite (newton_next_mirror e M E He). apply IH.
Qed.

(** C5. For an eccentricity in [0, 0.9] and a mean anomaly in
    [0, 2 PI), the ten Newton steps seeded at [E = M] return an eccentric
    anomaly [E] whose residual [E - e sin E - M] in Kepler's equation is
    less than [1e-9] in absolute value (exact real arithmetic). *)
Theorem kepler_solve_residual (e M : R) :
  0 <= e <= 0.9 -> 0 <= M < 2 * PI ->
  exists E, eccentric_anomaly e M = Ok E /\ Rabs (E - e * sin E - M) < 1e-9.
Proof.
  intros He HM.
  assert (He1 : -1 < e < 1) by lra.
  exists (iter_next 10 e M M). split.
  - unfold eccentric_anomaly. apply newton_iter_next. exact He1.
  - destruct (Rle_dec M PI) as [Hlow|Hhigh].
    + pose proof (kepler_residual_half_turn e M He ltac:(lra)) as H.
      apply Rabs_def1; lra.
    + pose proof (kepler_residual_half_turn e (2 * PI - M) He ltac:(lra)) as H.
      pose proof (iter_next_mirror 10 e (2 * PI - M) He1 (2 * PI - M)) as Hm.
      replace (2 * PI - (2 * PI - M)) with M in Hm by ring.
      rewrite Hm, sin_mirror. 
      apply Rabs_def1; lra.
Qed.

Lemma kepler_solve_residual_witness :
  exists E, eccentric_anomaly 0.5 1 = Ok E /\ Rabs (E - 0.5 * sin E - 1) < 1e-9.
Proof.
  apply (kepler_solve_residual 0.5 1); [lra|].
  pose proof PI2_3_2. lra.
Defined.

(** ** The angle of a point of the unit circle *)

Lemma sin_period_Z (r : R) (k : Z) : sin (r + 2 * IZR k * PI) = sin r.
Proof.
  destruct (Z_le_gt_dec 0 k) as [Hk|Hk].
  - rewrite <- (Z2Nat.id k Hk), <- INR_IZR_INZ. apply sin_period.
  - rewrite <- (sin_period (r + 2 * IZR k * PI) (Z.to_nat (- k))).
    rewrite INR_IZR_INZ, Z2Nat.id by lia. rewrite opp_IZR. f_equal. ring.
Qed.

Lemma cos_period_Z (r : R) (k : Z) : cos (r + 2 * IZR k * PI) = cos r.
Proof.
  destruct (Z_le_gt_dec 0 k) as [Hk|Hk].
  - rewrite <- (Z2Nat.id k Hk), <- INR_IZR_INZ. apply cos_period.
  - rewrite <- (cos_period (r + 2 * IZR k * PI) (Z.to_nat (- k))).
    rewrite INR_IZR_INZ, Z2Nat.id by lia. rewrite opp_IZR. f_equal. ring.
Qed.

Lemma reduce_angle (h : R) :
  exists k : Z, - PI <= h - 2 * IZR k * PI < PI.
Proof.
  pose proof PI_RGT_0 as Hpi.
  exists (Int_part ((h + PI) / (2 * PI))).
  destruct (base_Int_part ((h + PI) / (2 * PI))) as [H1 H2].
  set (k := IZR (Int_part ((h + PI) / (2 * PI)))) in *.
  assert (E : (h + PI) / (2 * PI) * (2 * PI) = h + PI) by (field; lra).
  split.
  - apply (Rmult_le_compat_r (2 * PI)) in H1; [|lra]. rewrite E in H1. lra.
  - assert (H3 : (h + PI) / (2 * PI) < k + 1) by lra.
    apply (Rmult_lt_compat_r (2 * PI)) in H3; [|lra]. rewrite E in H3. lra.
Qed.

Lemma atan2_pos (b a : R) : 0 < a -> atan2 b a = atan (b / a).
Proof. intros H. unfold atan2. destruct (Rlt_dec 0 a); [reflexivity|lra]. Qed.

Lemma atan2_neg_up (b a : R) : a < 0 -> 0 <= b -> atan2 b a = atan (b / a) + PI.
Proof.
  intros Ha Hb. unfold atan2.
  destruct (Rlt_dec 0 a); [lra|]. destruct (Rlt_dec a 0); [|lra].
  destruct (Rle_dec 0 b); [reflexivity|lra].
Qed.

Lemma atan2_neg_down (b a : R) : a < 0 -> b < 0 -> atan2 b a = atan (b / a) - PI.
Proof.
  intros Ha Hb. unfold atan2.
  destruct (Rlt_dec 0 a); [lra|]. destruct (Rlt_dec a 0); [|lra].
  destruct (Rle_dec 0 b); [lra|reflexivity].
Qed.

Lemma atan2_zero_up (b : R) : 0 < b -> atan2 b 0 = PI / 2.
Proof.
  intros Hb. unfold atan2.
  destruct (Rlt_dec 0 0); [lra|]. destruct (Rlt_dec 0 b); [reflexivity|lra].
Qed.

Lemma atan2_zero_down (b : R) : b < 0 -> atan2 b 0 = - (PI / 2).
Proof.
  intros Hb. unfold atan2.
  destruct (Rlt_dec 0 0); [lra|]. destruct (Rlt_dec 0 b); [lra|].
  destruct (Rlt_dec b 0); [reflexivity|lra].
Qed.

(** On the principal range, [atan2] recovers the angle of a point of the
    unit circle (the angle [-PI] comes back as [PI]). *)
Lemma atan2_principal (h : R) :
  - PI <= h < PI ->
  atan2 (sin h) (cos h) = h \/ atan2 (sin h) (cos h) = h + 2 * PI.
Proof.
  intros [Hlo Hhi]. pose proof PI_RGT_0 as Hpi.
  destruct (Rtotal_order h (- PI)) as [H|[H|H]]; [lra| |].
  { right. subst h. rewrite sin_neg, cos_neg, sin_PI, cos_PI.
    rewrite atan2_neg_up by lra.
    replace (- 0 / -1) with 0 by field. rewrite atan_0. lra. }
  left.
  destruct (Rtotal_order h (- (PI / 2))) as [H1|[H1|H1]].
  - (* third quadrant *)
    assert (Hc : cos h < 0).
    { rewrite <- cos_neg. apply cos_lt_0; lra. }
    assert (Hs : sin h < 0) by (apply sin_lt_0_var; lra).
    rewrite atan2_neg_down by assumption.
    replace (sin h / cos h) with (tan (h + PI)).
    + rewrite atan_tan by lra. lra.
    + unfold tan. rewrite neg_sin, neg_cos. field. lra.
  - subst h. rewrite sin_neg, cos_neg, sin_PI2, cos_PI2.
    apply atan2_zero_down. lra.
  - destruct (Rtotal_order h (PI / 2)) as [H2|[H2|H2]].
    + assert (Hc : 0 < cos h) by (apply cos_gt_0; lra).
      rewrite atan2_pos by assumption.
      change (sin h / cos h) with (tan h). apply atan_tan. lra.
    + subst h. rewrite sin_PI2, cos_PI2. apply atan2_zero_up. lra.
    + assert (Hc : cos h < 0) by (apply cos_lt_0; lra).
      assert (Hs : 0 < sin h) by (apply sin_gt_0; lra).
      rewrite atan2_neg_up by lra.
      replace (sin h / cos h) with (tan (h - PI)).
      * rewrite atan_tan by lra. lra.
      * assert (Hc2 : cos h = - cos (h - PI)).
        { rewrite <- neg_cos. f_equal. ring. }
        assert (Hs2 : sin h = - sin (h - PI)).
        { rewrite <- neg_sin. f_equal. ring. }
        unfold tan. rewrite Hs2, Hc2. field. lra.
Qed.

Lemma atan2_sin_cos (h : R) :
  exists k : Z, atan2 (sin h) (cos h) = h + 2 * IZR k * PI.
Proof.
  destruct (reduce_angle h) as [k Hk].
  set (h0 := h - 2 * IZR k * PI) in *.
  assert (Hs : sin h = sin h0).
  { rewrite <- (sin_period_Z h0 k). f_equal. unfold h0. ring. }
  assert (Hc : cos h = cos h0).
  { rewrite <- (cos_period_Z h0 k). f_equal. unfold h0. ring. }
  rewrite Hs, Hc.
  destruct (atan2_principal h0 Hk) as [E|E]; rewrite E.
  - exists (- k)%Z. rewrite opp_IZR. unfold h0. ring.
  - exists (1 - k)%Z. rewrite minus_IZR. unfold h0. ring.
Qed.

(** ** Circular orbits *)

Lemma newton_step_circular (M : R) : newton_step 0 M M = Ok M.
Proof.
  unfold newton_step. rewrite pydiv_nonzero by lra.
  cbn [bind]. f_equal. field.
Qed.

Lemma newton_iter_circular (n : nat) (M : R) : newton_iter n 0 M M = Ok M.
Proof.
  induction n as [|n IH]; [reflexivity|].
  cbn [newton_iter]. rewrite newton_step_circular. exact IH.
Qed.

Lemma true_anomaly_circular (E : R) :
  true_anomaly 0 E = Ok (2 * atan2 (sin (E / 2)) (cos (E / 2))).
Proof.
  unfold true_anomaly.
  rewrite !pysqrt_nonneg by lra. cbn [bind].
  rewrite Rplus_0_r, Rminus_0_r, sqrt_1, !Rmult_1_l. reflexivity.
Qed.

(** C6. With eccentricity zero the ten Newton steps leave [E = M], the
    true anomaly is [M] up to a multiple of [2 PI], and the radius is the
    semi-major axis, for every mean anomaly [M]. *)
Theorem circular_orbit (M a : R) :
  eccentric_anomaly 0 M = Ok M
  /\ (exists (nu : R) (k : Z),
        true_anomaly 0 M = Ok nu /\ nu = M + 2 * IZR k * PI)
  /\ orbit_radius a 0 M = a.
Proof.
  split; [apply newton_iter_circular|]. split.
  - destruct (atan2_sin_cos (M / 2)) as [k Hk].
    exists (2 * atan2 (sin (M / 2)) (cos (M / 2))), (2 * k)%Z.
    split; [apply true_anomaly_circular|].
    rewrite Hk, mult_IZR. field.
  - unfold orbit_radius. ring.
Qed.

(** The circular case through the whole planet engine. *)
Lemma circular_planet_distance (oe : orbital_elements) (t : datetime) :
  eccentricity oe = 0 ->
  0 < semi_major_axis oe ->
  orbital_period oe <> 0 ->
  exists sv,
    calculate_planet_position oe t = Ok sv
    /\ distance_sun sv = semi_major_axis oe.
Proof.
  intros He Ha Hp.
  destruct (planet_position_total oe t) as (sv & E & H & Hd); try assumption.
  { rewrite He. lra. }
  exists sv. split; [exact H|].
  rewrite Hd, He. unfold orbit_radius. ring.
Qed.

(** ** Moons *)

(** The moon engine over the reals, on a parent at rest. *)
Lemma moon_about_resting_parent_value
    (md : moon_data) (parent : StateVector) (t : datetime) :
  moon_inclination md = 0 ->
  vx parent = 0 -> vy parent = 0 -> vz parent = 0 ->
  moon_orbital_period md <> 0 ->
  exists sv,
    calculate_moon_position md parent t = Ok sv
    /\ x sv = x parent + moon_semi_major_axis md / AU * cos (moon_mean_anomaly md t)
    /\ y sv = y parent + moon_semi_major_axis md / AU * sin (moon_mean_anomaly md t)
    /\ z sv = z parent + 0
    /\ speed_sun sv = Rabs (moon_orbital_speed md).
Proof.
  intros Hi Hvx Hvy Hvz Hp.
  assert (Hper : moon_orbital_period md * DAY_SECONDS <> 0).
  { unfold DAY_SECONDS. intros E. apply Hp. lra. }
  unfold calculate_moon_position.
  rewrite Hi, Hvx, Hvy, Hvz. unfold radians.
  replace (0 * (PI / 180)) with 0 by ring. rewrite cos_0, sin_0.
  rewrite !pydiv_nonzero by assumption. cbn [bind].
  rewrite !pysqrt_nonneg by apply sum_squares_nonneg. cbn [bind].
  eexists. split; [reflexivity|].
  cbn [x y z speed_sun]. fold (moon_mean_anomaly md t). fold (moon_orbital_speed md).
  set (M := moon_mean_anomaly md t). set (v := moon_orbital_speed md).
  repeat split; try ring.
  rewrite <- sqrt_Rsqr_abs. f_equal.
  pose proof (sin2_cos2 M) as H. unfold Rsqr in *.
  transitivity (v * v * (sin M * sin M + cos M * cos M)); [ring|].
  rewrite H. ring.
Qed.

Lemma moon_orbital_speed_nonneg (md : moon_data) :
  0 <= moon_semi_major_axis md -> 0 < moon_orbital_period md ->
  0 <= moon_orbital_speed md.
Proof.
  intros Ha Hp. unfold moon_orbital_speed, AU, DAY_SECONDS.
  pose proof PI_RGT_0.
  apply Rmult_le_pos.
  - apply Rmult_le_pos; [|lra]. apply Rmult_le_pos; [lra|].
    apply Rmult_le_pos; [lra|]. lra.
  - apply Rlt_le, Rinv_0_lt_compat. lra.
Qed.

(** C9. A moon of the data model (semi-major axis not negative, period
    positive) with zero inclination about a parent at rest: the state the
    moon engine returns has the parent's position plus the circular planar
    offset [a (cos M, sin M, 0)], and its speed relative to the Sun is the
    moon's own orbital speed [2 pi a AU / periodSeconds]. *)
Theorem moon_about_resting_parent
    (md : moon_data) (parent : StateVector) (t : datetime) (sv : StateVector) :
  moon_inclination md = 0 ->
  vx parent = 0 -> vy parent = 0 -> vz parent = 0 ->
  0 <= moon_semi_major_axis md ->
  0 < moon_orbital_period md ->
  calculate_moon_position md parent t = Ok sv ->
  x sv = x parent + moon_semi_major_axis md / AU * cos (moon_mean_anomaly md t)
  /\ y sv = y parent + moon_semi_major_axis md / AU * sin (moon_mean_anomaly md t)
  /\ z sv = z parent + 0
  /\ speed_sun sv = moon_orbital_speed md.
Proof.
  intros Hi Hvx Hvy Hvz Ha Hpos Hsv.
  assert (Hp : moon_orbital_period md <> 0) by lra.
  destruct (moon_about_resting_parent_value md parent t Hi Hvx Hvy Hvz Hp)
    as (sv' & H & Hx & Hy & Hz & Hs).
  rewrite Hsv in H. injection H as <-.
  repeat split; auto.
  rewrite Hs. apply Rabs_right, Rle_ge.
  apply moon_orbital_speed_nonneg; assumption.
Qed.

Lemma moon_about_resting_parent_witness :
  exists sv,
    calculate_moon_position moon_of_earth resting_parent J2000 = Ok sv
    /\ speed_sun sv = moon_orbital_speed moon_of_earth.
Proof.
  assert (Hp : moon_orbital_period moon_of_earth <> 0) by (cbn; lra).
  destruct (moon_about_resting_parent_value moon_of_earth resting_parent J2000
              eq_refl eq_refl eq_refl eq_refl Hp)
    as (sv & H & _).
  exists sv. split; [exact H|].
  apply (moon_about_resting_parent moon_of_earth resting_parent J2000 sv
           eq_refl eq_refl eq_refl eq_refl);
    [cbn; lra | cbn; lra | exact H].
Defined.

(** * Further properties *)

(** ** Inverting the error monad *)

Lemma bind_ok_inv {A B : Type} (m : result A) (k : A -> result B) (b : B) :
  bind m k = Ok b -> exists a, m = Ok a /\ k a = Ok b.
Proof.
  destruct m as [a|e]; cbn; [|discriminate]. intros H. exists a. auto.
Qed.

Lemma pydiv_ok_inv (a b q : R) : pydiv a b = Ok q -> b <> 0 /\ q = a / b.
Proof.
  unfold pydiv. destruct (Req_dec_T b 0); [discriminate|].
  intros H. injection H as <-. auto.
Qed.

Lemma pysqrt_ok_inv (r q : R) : pysqrt r = Ok q -> 0 <= r /\ q = sqrt r.
Proof.
  unfold pysqrt. destruct (Rlt_dec r 0); [discriminate|].
  intros H. injection H as <-. split; [lra | reflexivity].
Qed.

Lemma pydiv_zero (a : R) : pydiv a 0 = Raise ZeroDivisionError.
Proof.
  unfold pydiv. destruct (Req_dec_T 0 0); [reflexivity | contradiction].
Qed.

Lemma pysqrt_negative (r : R) : r < 0 -> pysqrt r = Raise ValueError.
Proof.
  intros H. unfold pysqrt. destruct (Rlt_dec r 0); [reflexivity | contradiction].
Qed.

(** ** Julian dates *)

Section JulianDay.

Local Open Scope Z_scope.

Lemma julian_day_number_ordinal (dt : datetime) :
  1 <= month dt <= 12 ->
  julian_day_number dt = toordinal dt + 1721425.
Proof.
  intros Hm. unfold julian_day_number, toordinal, days_before_year, days_before_month, is_leap.
  set (yy := year dt).
  destruct (month_cases _ Hm) as
    [->|[->|[->|[->|[->|[->|[->|[->|[->|[->|[->| ->]]]]]]]]]]]; cbn -[Z.div Z.modulo Z.mul Z.add Z.sub];
  try (destruct (Z.eqb_spec (yy mod 4) 0) as [H4|H4];
       destruct (Z.eqb_spec (yy mod 100) 0) as [H100|H100];
       destruct (Z.eqb_spec (yy mod 400) 0) as [H400|H400];
       cbn [andb orb negb]);
  Z.div_mod_to_equations; lia.
Qed.

End JulianDay.

Lemma julian_date_affine (dt : datetime) :
  (1 <= month dt <= 12)%Z ->
  julian_date dt = IZR (to_microseconds dt) / 86400000000 + 1721424.5.
Proof.
  intros Hm. unfold julian_date. cbv zeta.
  rewrite (julian_day_number_ordinal dt Hm).
  unfold to_microseconds.
  repeat (rewrite ?plus_IZR, ?mult_IZR, ?minus_IZR).
  lra.
Qed.

Lemma seconds_since_J2000 (dt : datetime) :
  (1 <= month dt <= 12)%Z ->
  days_since_epoch (julian_date dt) * DAY_SECONDS
  = IZR (datetime_sub dt J2000) / 1000000.
Proof.
  intros Hm. rewrite (julian_date_affine dt Hm).
  unfold days_since_epoch, DAY_SECONDS, datetime_sub. cbv zeta.
  rewrite minus_IZR.
  replace (to_microseconds J2000) with 63082411200000000%Z by reflexivity.
  lra.
Qed.

(** X1. For a month in range, the Julian day number of the code is the
    proleptic Gregorian ordinal of the date plus 1721425: it counts days
    without gap or repetition. *)
Theorem julian_day_number_counts_days (dt : datetime) :
  (1 <= month dt <= 12)%Z ->
  julian_day_number dt = (toordinal dt + 1721425)%Z.
Proof. exact (julian_day_number_ordinal dt). Qed.

Lemma julian_day_number_counts_days_witness :
  julian_day_number J2000 = (toordinal J2000 + 1721425)%Z.
Proof.
  apply (julian_day_number_counts_days J2000). cbn. lia.
Defined.

(** X2. The time [t] the planet and moon engines feed into the mean
    anomaly, [days_since_epoch (julian_date dt) * DAY_SECONDS], is the
    number of seconds elapsed since 2000-01-01 12:00:00. *)
Theorem engine_time_is_elapsed_seconds (dt : datetime) :
  (1 <= month dt <= 12)%Z ->
  days_since_epoch (julian_date dt) * DAY_SECONDS
  = IZR (datetime_sub dt J2000) / 1000000.
Proof. exact (seconds_since_J2000 dt). Qed.

Lemma engine_time_is_elapsed_seconds_witness :
  days_since_epoch (julian_date noon_2024_01_01) * DAY_SECONDS
  = IZR (datetime_sub noon_2024_01_01 J2000) / 1000000.
Proof.
  apply (engine_time_is_elapsed_seconds noon_2024_01_01). cbn. lia.
Defined.

(** ** The planet engine, state by state *)

Lemma planet_position_inv (oe : orbital_elements) (t : datetime) (sv : StateVector) :
  calculate_planet_position oe t = Ok sv ->
  exists E nu,
    orbital_period oe * YEAR_SECONDS <> 0
    /\ eccentric_anomaly (eccentricity oe) (planet_mean_anomaly oe t) = Ok E
    /\ true_anomaly (eccentricity oe) E = Ok nu
    /\ orbit_radius (semi_major_axis oe) (eccentricity oe) E * AU <> 0
    /\ semi_major_axis oe * AU <> 0
    /\ 0 <= G * M_SUN * (2 / (orbit_radius (semi_major_axis oe) (eccentricity oe) E * AU)
                         - 1 / (semi_major_axis oe * AU))
    /\ 0 <= 1 - eccentricity oe ^ 2
    /\ sv = planet_state oe E nu.
Proof.
  unfold calculate_planet_position. intros H.
  apply bind_ok_inv in H. destruct H as (n & Hn & H).
  apply pydiv_ok_inv in Hn. destruct Hn as [Hper ->].
  apply bind_ok_inv in H. destruct H as (E & HE & H).
  apply bind_ok_inv in H. destruct H as (nu & Hnu & H).
  apply bind_ok_inv in H. destruct H as (q1 & Hq1 & H).
  apply pydiv_ok_inv in Hq1. destruct Hq1 as [Hr ->].
  apply bind_ok_inv in H. destruct H as (q2 & Hq2 & H).
  apply pydiv_ok_inv in Hq2. destruct Hq2 as [Ha ->].
  apply bind_ok_inv in H. destruct H as (v & Hv & H).
  apply pysqrt_ok_inv in Hv. destruct Hv as [Hv0 ->].
  apply bind_ok_inv in H. destruct H as (s & Hs & H).
  apply pysqrt_ok_inv in Hs. destruct Hs as [Hs0 ->].
  injection H as <-.
  exists E, nu. repeat split; try assumption.
Qed.

Lemma rotated_norm (r cn sn ci si co so : R) :
  cn * cn + sn * sn = 1 -> ci * ci + si * si = 1 -> co * co + so * so = 1 ->
  (r * cn * co - (r * sn * ci - 0 * si) * so) ^ 2
  + (r * cn * so + (r * sn * ci - 0 * si) * co) ^ 2
  + (r * sn * si + 0 * ci) ^ 2 = r ^ 2.
Proof. intros Hn Hi Ho.
  transitivity (r ^ 2 * (cn * cn * (co * co + so * so) + sn * sn * (ci * ci * (co * co + so * so) + si * si))).
  - ring.
  - rewrite Ho, !Rmult_1_r, Hi, Rmult_1_r, Hn. ring.
Qed.
Lemma trig_one (a : R) : cos a * cos a + sin a * sin a = 1.
Proof. pose proof (sin2_cos2 a) as H. unfold Rsqr in H. lra. Qed.

(** X4. On elements with an eccentricity in [0, 1), a semi-major axis
    and a period between [1e-6] and [1e6] (AU, years) and a mean anomaly
    at epoch of at most [1e6] degrees in absolute value, the planet engine
    raises nothing: it returns a state, at a positive distance from the
    Sun. *)
Theorem planet_engine_returns (oe : orbital_elements) (t : datetime) :
  0 <= eccentricity oe < 1 ->
  1e-6 <= semi_major_axis oe <= 1e6 ->
  1e-6 <= orbital_period oe <= 1e6 ->
  Rabs (mean_anomaly_0 oe) <= 1e6 ->
  exists sv, calculate_planet_position oe t = Ok sv /\ 0 < distance_sun sv.
Proof.
  intros He Ha Hp _.
  assert (Ha0 : 0 < semi_major_axis oe) by lra.
  assert (Hp0 : orbital_period oe <> 0) by lra.
  destruct (planet_position_total oe t He Ha0 Hp0) as (sv & E & H & Hd).
  exists sv. split; [exact H|].
  rewrite Hd. unfold orbit_radius.
  apply Rmult_lt_0_compat; [exact Ha0|].
  apply kepler_denominator_pos. lra.
Qed.

Lemma planet_engine_returns_witness :
  exists sv,
    calculate_planet_position (earth_elements 102.9) noon_2024_01_01 = Ok sv
    /\ 0 < distance_sun sv.
Proof.
  apply (planet_engine_returns (earth_elements 102.9) noon_2024_01_01);
    cbn [earth_elements eccentricity semi_major_axis orbital_period mean_anomaly_0];
    try lra.
  apply Rabs_le. lra.
Defined.

(** Earth's elements give a state at noon of 2024-01-01. *)
Lemma earth_state_2024 :
  exists sv, calculate_planet_position (earth_elements 102.9) noon_2024_01_01 = Ok sv.
Proof.
  destruct (planet_position_total (earth_elements 102.9) noon_2024_01_01)
    as (sv & E & H & _); try (cbn; lra).
  exists sv. exact H.
Defined.

(** X6. The position a planet is given lies at the reported distance
    from the Sun, whatever the inclination and the node. *)
Theorem planet_position_norm (oe : orbital_elements) (t : datetime) (sv : StateVector) :
  calculate_planet_position oe t = Ok sv ->
  x sv ^ 2 + y sv ^ 2 + z sv ^ 2 = distance_sun sv ^ 2.
Proof.
  intros H. destruct (planet_position_inv oe t sv H) as (E & nu & _ & _ & _ & _ & _ & _ & _ & ->).
  unfold planet_state. cbn [x y z distance_sun].
  apply rotated_norm; apply trig_one.
Qed.

Lemma planet_position_norm_witness :
  exists sv,
    calculate_planet_position (earth_elements 102.9) noon_2024_01_01 = Ok sv
    /\ x sv ^ 2 + y sv ^ 2 + z sv ^ 2 = distance_sun sv ^ 2.
Proof.
  destruct earth_state_2024 as [sv H]. exists sv. split; [exact H|].
  apply (planet_position_norm _ _ _ H).
Defined.

(** X7. For a semi-major axis and an eccentricity that are not negative,
    the reported distance lies between perihelion [a (1 - e)] and
    aphelion [a (1 + e)], however far the ten Newton steps are from the
    root. *)
Theorem planet_radius_bounds (oe : orbital_elements) (t : datetime) (sv : StateVector) :
  calculate_planet_position oe t = Ok sv ->
  0 <= semi_major_axis oe -> 0 <= eccentricity oe ->
  semi_major_axis oe * (1 - eccentricity oe) <= distance_sun sv
    <= semi_major_axis oe * (1 + eccentricity oe).
Proof.
  intros H Ha He.
  destruct (planet_position_inv oe t sv H) as (E & nu & _ & _ & _ & _ & _ & _ & _ & ->).
  unfold planet_state, orbit_radius. cbn [distance_sun].
  pose proof (COS_bound E) as Hc.
  set (a := semi_major_axis oe) in *. set (e := eccentricity oe) in *.
  assert (Hae : 0 <= a * e) by (apply Rmult_le_pos; assumption).
  assert (H1 : 0 <= a * e * (1 - cos E)) by (apply Rmult_le_pos; lra).
  assert (H2 : 0 <= a * e * (1 + cos E)) by (apply Rmult_le_pos; lra).
  split; lra.
Qed.

Lemma planet_radius_bounds_witness :
  exists sv,
    calculate_planet_position (earth_elements 102.9) noon_2024_01_01 = Ok sv
    /\ 1.0 * (1 - 0.0167086) <= distance_sun sv <= 1.0 * (1 + 0.0167086).
Proof.
  destruct earth_state_2024 as [sv H]. exists sv. split; [exact H|].
  apply (planet_radius_bounds _ _ _ H); cbn; lra.
Defined.

Lemma velocity_norm (v s cn sn ci si co so e : R) :
  cn * cn + sn * sn = 1 -> ci * ci + si * si = 1 -> co * co + so * so = 1 ->
  s * s = 1 - e * e ->
  (- v * sn * co - (v * s * cn * ci - 0 * si) * so) ^ 2
  + (- v * sn * so + (v * s * cn * ci - 0 * si) * co) ^ 2
  + (v * s * cn * si + 0 * ci) ^ 2 = v ^ 2 * (1 - (e * cn) ^ 2).
Proof. intros Hn Hi Ho Hs.
  transitivity (v ^ 2 * (sn * sn * (co * co + so * so) + (s * s) * (cn * cn) * (ci * ci * (co * co + so * so) + si * si))).
  - ring.
  - rewrite Ho, !Rmult_1_r, Hi, Rmult_1_r, Hs.
    replace (sn * sn) with (1 - cn * cn) by lra. ring.
Qed.

(** X8. The velocity vector a planet is given is never longer than the
    reported vis-viva speed, and has exactly that length on a circular
    orbit. *)
Theorem planet_velocity_norm (oe : orbital_elements) (t : datetime) (sv : StateVector) :
  calculate_planet_position oe t = Ok sv ->
  vx sv ^ 2 + vy sv ^ 2 + vz sv ^ 2 <= speed_sun sv ^ 2
  /\ (eccentricity oe = 0 -> vx sv ^ 2 + vy sv ^ 2 + vz sv ^ 2 = speed_sun sv ^ 2).
Proof.
  intros H.
  destruct (planet_position_inv oe t sv H) as (E & nu & _ & _ & _ & _ & _ & _ & Hs & ->).
  unfold planet_state. cbn [vx vy vz speed_sun].
  set (v := sqrt _). set (s := sqrt (1 - eccentricity oe ^ 2)).
  assert (Hss : s * s = 1 - eccentricity oe * eccentricity oe).
  { unfold s. rewrite sqrt_sqrt by exact Hs. ring. }
  rewrite (velocity_norm v s (cos nu) (sin nu) _ _ _ _ (eccentricity oe)
             (trig_one nu) (trig_one _) (trig_one _) Hss).
  split.
  - assert (0 <= (eccentricity oe * cos nu) ^ 2) by nra.
    assert (0 <= v ^ 2) by nra. nra.
  - intros ->. ring.
Qed.

Lemma planet_velocity_norm_witness :
  exists sv,
    calculate_planet_position (earth_elements 102.9) noon_2024_01_01 = Ok sv
    /\ vx sv ^ 2 + vy sv ^ 2 + vz sv ^ 2 <= speed_sun sv ^ 2.
Proof.
  destruct earth_state_2024 as [sv H]. exists sv. split; [exact H|].
  apply (proj1 (planet_velocity_norm _ _ _ H)).
Defined.

(** X5. The planet engine returns a state only for a non-zero period, a
    non-zero semi-major axis and an eccentricity in [-1, 1]; the
    distance it returns is then not zero. *)
Theorem planet_position_needs (oe : orbital_elements) (t : datetime) (sv : StateVector) :
  calculate_planet_position oe t = Ok sv ->
  orbital_period oe <> 0
  /\ semi_major_axis oe <> 0
  /\ -1 <= eccentricity oe <= 1
  /\ distance_sun sv <> 0.
Proof.
  intros H.
  destruct (planet_position_inv oe t sv H)
    as (E & nu & Hper & _ & Hnu & Hr & Ha & _ & Hs & ->).
  unfold planet_state. cbn [distance_sun].
  repeat split.
  - intros E0. apply Hper. rewrite E0. ring.
  - intros E0. apply Ha. rewrite E0. ring.
  - nra.
  - nra.
  - intros E0. apply Hr. rewrite E0. ring.
Qed.

Lemma planet_position_needs_witness :
  exists sv,
    calculate_planet_position (earth_elements 102.9) noon_2024_01_01 = Ok sv
    /\ distance_sun sv <> 0.
Proof.
  destruct earth_state_2024 as [sv H]. exists sv. split; [exact H|].
  apply (planet_position_needs _ _ _ H).
Defined.

Lemma planet_zero_period (oe : orbital_elements) (t : datetime) :
  orbital_period oe = 0 ->
  calculate_planet_position oe t = Raise ZeroDivisionError.
Proof.
  intros H. unfold calculate_planet_position. rewrite H.
  replace (0 * YEAR_SECONDS) with 0 by ring. rewrite pydiv_zero. reflexivity.
Qed.

(** ** Moons about their parent *)

(** The value of the moon engine over the reals. *)
Lemma moon_position_value (md : moon_data) (parent : StateVector) (t : datetime) :
  moon_orbital_period md <> 0 ->
  calculate_moon_position md parent t
  = Ok (moon_state md parent (moon_mean_anomaly md t)).
Proof.
  intros Hp.
  assert (Hper : moon_orbital_period md * DAY_SECONDS <> 0).
  { unfold DAY_SECONDS. intros E. apply Hp. lra. }
  unfold calculate_moon_position.
  rewrite !pydiv_nonzero by assumption. cbn [bind].
  rewrite !pysqrt_nonneg by apply sum_squares_nonneg. cbn [bind].
  reflexivity.
Qed.

Lemma moon_zero_period (md : moon_data) (parent : StateVector) (t : datetime) :
  moon_orbital_period md = 0 ->
  calculate_moon_position md parent t = Raise ZeroDivisionError.
Proof.
  intros Hp. unfold calculate_moon_position. rewrite Hp.
  replace (0 * DAY_SECONDS) with 0 by ring. rewrite pydiv_zero. reflexivity.
Qed.

(** X10. The moon engine raises [ZeroDivisionError] on a zero period.
    On a record with a period between [1e-6] and [1e6] days and a
    semi-major axis of at most [1e12] km in absolute value, about a
    parent whose components are at most [1e12] in absolute value, it
    returns a state. *)
Theorem moon_position_returns (md : moon_data) (parent : StateVector) (t : datetime) :
  (moon_orbital_period md = 0 ->
     calculate_moon_position md parent t = Raise ZeroDivisionError)
  /\ (1e-6 <= moon_orbital_period md <= 1e6 ->
      Rabs (moon_semi_major_axis md) <= 1e12 ->
      state_within 1e12 parent ->
      exists sv, calculate_moon_position md parent t = Ok sv).
Proof.
  split.
  - apply moon_zero_period.
  - intros Hp _ _. eexists. apply (moon_position_value md parent t). lra.
Qed.

Lemma moon_position_returns_witness :
  exists sv, calculate_moon_position moon_of_earth resting_parent J2000 = Ok sv.
Proof.
  apply (proj2 (moon_position_returns moon_of_earth resting_parent J2000)).
  - cbn [moon_of_earth moon_orbital_period]. lra.
  - cbn [moon_of_earth moon_semi_major_axis]. apply Rabs_le. lra.
  - state_within_fields.
Defined.

Lemma moon_position_inv (md : moon_data) (parent : StateVector) (t : datetime)
    (sv : StateVector) :
  calculate_moon_position md parent t = Ok sv ->
  moon_orbital_period md <> 0
  /\ sv = moon_state md parent (moon_mean_anomaly md t).
Proof.
  intros H.
  destruct (Req_dec_T (moon_orbital_period md) 0) as [E0|Hp].
  - rewrite (moon_zero_period md parent t E0) in H. discriminate.
  - rewrite (moon_position_value md parent t Hp) in H. injection H as <-. auto.
Qed.

(** X11. Whatever the inclination, a moon stays at its semi-major axis from
    its parent, moves relative to it at its orbital speed, and that
    relative velocity is at right angles to the offset. *)
Theorem moon_circles_parent (md : moon_data) (parent : StateVector) (t : datetime)
    (sv : StateVector) :
  calculate_moon_position md parent t = Ok sv ->
  (x sv - x parent) ^ 2 + (y sv - y parent) ^ 2 + (z sv - z parent) ^ 2
    = (moon_semi_major_axis md / AU) ^ 2
  /\ (vx sv - vx parent) ^ 2 + (vy sv - vy parent) ^ 2 + (vz sv - vz parent) ^ 2
    = moon_orbital_speed md ^ 2
  /\ (x sv - x parent) * (vx sv - vx parent)
     + (y sv - y parent) * (vy sv - vy parent)
     + (z sv - z parent) * (vz sv - vz parent) = 0.
Proof.
  intros H. destruct (moon_position_inv md parent t sv H) as [Hp ->].
  unfold moon_state. cbn [x y z vx vy vz]. fold (moon_orbital_speed md).
  set (M := moon_mean_anomaly md t). set (i := radians (moon_inclination md)).
  set (a := moon_semi_major_axis md / AU). set (v := moon_orbital_speed md).
  pose proof (trig_one M) as HM. pose proof (trig_one i) as Hi.
  repeat split.
  - transitivity (a ^ 2 * (cos M * cos M + sin M * sin M * (cos i * cos i + sin i * sin i))); [ring|].
    rewrite Hi, Rmult_1_r, HM. ring.
  - transitivity (v ^ 2 * (sin M * sin M + cos M * cos M * (cos i * cos i + sin i * sin i))); [ring|].
    rewrite Hi, Rmult_1_r. replace (sin M * sin M + cos M * cos M) with 1 by lra. ring.
  - transitivity (a * v * sin M * cos M * ((cos i * cos i + sin i * sin i) - 1)); [ring|].
    rewrite Hi. ring.
Qed.

Lemma moon_circles_parent_witness :
  exists sv,
    calculate_moon_position moon_of_earth resting_parent J2000 = Ok sv
    /\ (x sv - x resting_parent) ^ 2 + (y sv - y resting_parent) ^ 2
       + (z sv - z resting_parent) ^ 2 = (384400 / AU) ^ 2.
Proof.
  assert (Hp : moon_orbital_period moon_of_earth <> 0) by (cbn; lra).
  eexists. split; [apply (moon_position_value moon_of_earth resting_parent J2000 Hp)|].
  apply (proj1 (moon_circles_parent moon_of_earth resting_parent J2000 _
                  (moon_position_value moon_of_earth resting_parent J2000 Hp))).
Defined.

(** ** Distances between bodies *)

Lemma norm3_nonneg (a b c : R) : 0 <= norm3 a b c.
Proof. unfold norm3. apply sqrt_pos. Qed.

Lemma norm3_sqr (a b c : R) : norm3 a b c * norm3 a b c = a * a + b * b + c * c.
Proof. unfold norm3. apply sqrt_sqrt. nra. Qed.

Lemma norm3_ge_first (a b c : R) : Rabs a <= norm3 a b c.
Proof.
  apply Rsqr_incr_0_var; [|apply norm3_nonneg].
  rewrite <- Rsqr_abs. unfold Rsqr. rewrite norm3_sqr. nra.
Qed.

Lemma norm3_le_sum (a b c : R) : norm3 a b c <= Rabs a + Rabs b + Rabs c.
Proof.
  pose proof (Rabs_pos a) as Ha. pose proof (Rabs_pos b) as Hb.
  pose proof (Rabs_pos c) as Hc.
  apply Rsqr_incr_0_var; [|lra].
  unfold Rsqr. rewrite norm3_sqr.
  pose proof (Rsqr_abs a) as Ea. pose proof (Rsqr_abs b) as Eb.
  pose proof (Rsqr_abs c) as Ec. unfold Rsqr in Ea, Eb, Ec.
  rewrite Ea, Eb, Ec. nra.
Qed.

(** The value of the distance over the reals. *)
Lemma distance_to_target_value (A B : StateVector) :
  calculate_distance_to_target A B = Ok (position_gap A B).
Proof.
  unfold calculate_distance_to_target.
  rewrite pysqrt_nonneg by apply sum_squares_nonneg.
  rewrite sum_squares_norm3. reflexivity.
Qed.

(** X13. Whenever the relative-motion calculator returns, its distance
    is not negative, is at least the absolute difference of the two
    states in each coordinate and at most the sum of the three, and is
    zero when the two positions coincide. *)
Theorem relative_distance_bounds (A B : StateVector) (rel : relative_motion) :
  calculate_relative_to_earth A B = Ok rel ->
  0 <= distance_earth rel
  /\ Rabs (x A - x B) <= distance_earth rel
  /\ Rabs (y A - y B) <= distance_earth rel
  /\ Rabs (z A - z B) <= distance_earth rel
  /\ distance_earth rel <= Rabs (x A - x B) + Rabs (y A - y B) + Rabs (z A - z B)
  /\ (x A = x B -> y A = y B -> z A = z B -> distance_earth rel = 0).
Proof.
  intros H. rewrite relative_to_earth_value in H. injection H as <-.
  cbn [distance_earth]. unfold position_gap.
  split; [apply norm3_nonneg|].
  split; [apply norm3_ge_first|].
  split.
  { replace (norm3 (x A - x B) (y A - y B) (z A - z B))
      with (norm3 (y A - y B) (x A - x B) (z A - z B))
      by (unfold norm3; f_equal; ring).
    apply norm3_ge_first. }
  split.
  { replace (norm3 (x A - x B) (y A - y B) (z A - z B))
      with (norm3 (z A - z B) (y A - y B) (x A - x B))
      by (unfold norm3; f_equal; ring).
    apply norm3_ge_first. }
  split; [apply norm3_le_sum|].
  intros -> -> ->. rewrite !Rminus_diag. apply norm3_zero.
Qed.

Lemma relative_distance_bounds_witness :
  exists rel,
    calculate_relative_to_earth state_on_x_axis state_on_y_axis = Ok rel
    /\ Rabs (3 - 0) <= distance_earth rel
    /\ distance_earth rel <= Rabs (3 - 0) + Rabs (0 - 4) + Rabs (0 - 0).
Proof.
  eexists. split; [apply relative_to_earth_value|].
  pose proof (relative_distance_bounds state_on_x_axis state_on_y_axis _
                (relative_to_earth_value state_on_x_axis state_on_y_axis))
    as (_ & Hx & _ & _ & Hs & _).
  split; [exact Hx | exact Hs].
Defined.

(** X14. A distance to target that is returned is the distance part of
    the relative motion returned for the same two states, and exchanging
    the two states changes nothing in what the call gives. *)
Theorem distance_to_target_agrees (A B : StateVector) :
  (forall d rel,
     calculate_distance_to_target A B = Ok d ->
     calculate_relative_to_earth A B = Ok rel ->
     d = distance_earth rel)
  /\ calculate_distance_to_target B A = calculate_distance_to_target A B.
Proof.
  split.
  - intros d rel Hd Hrel.
    rewrite distance_to_target_value in Hd. injection Hd as <-.
    rewrite relative_to_earth_value in Hrel. injection Hrel as <-.
    reflexivity.
  - rewrite !distance_to_target_value. f_equal. unfold position_gap.
    rewrite <- norm3_opp. f_equal; ring.
Qed.

Lemma distance_to_target_agrees_witness :
  exists d rel,
    calculate_distance_to_target state_on_x_axis state_on_y_axis = Ok d
    /\ calculate_relative_to_earth state_on_x_axis state_on_y_axis = Ok rel
    /\ d = distance_earth rel.
Proof.
  do 2 eexists. split; [apply distance_to_target_value|].
  split; [apply relative_to_earth_value|].
  apply (proj1 (distance_to_target_agrees state_on_x_axis state_on_y_axis));
    [apply distance_to_target_value | apply relative_to_earth_value].
Defined.

(** ** Spacecraft: the branches of the dispatch *)

Lemma years_between_nonneg (now launch : datetime) :
  (0 <= datetime_sub now launch)%Z -> 0 <= years_between now launch.
Proof.
  intros H. apply IZR_le in H.
  unfold years_between, YEAR_SECONDS, DAY_SECONDS.
  apply Rmult_le_pos; [apply Rmult_le_pos; lra | lra].
Qed.

Lemma pymod_range (r m : R) : 0 < m -> 0 <= pymod r m < m.
Proof.
  intros Hm. unfold pymod.
  destruct (base_Int_part (r / m)) as [H1 H2].
  assert (E : r / m * m = r) by (field; lra).
  set (k := IZR (Int_part (r / m))) in *.
  assert (H3 : k * m <= r / m * m) by (apply Rmult_le_compat_r; lra).
  assert (H4 : (r / m - 1) * m < k * m) by (apply Rmult_lt_compat_r; lra).
  rewrite E in H3. replace ((r / m - 1) * m) with (r / m * m - m) in H4 by ring.
  rewrite E in H4. lra.
Qed.

(** The distance of the solar-orbit branch stays between the perihelion
    and the aphelion written in the code. *)
Lemma solar_orbit_distance_bounds (phase : R) :
  0.046 <= (0.046 + 0.73) / 2 * (1 - 0.88 * cos phase) <= 0.73.
Proof. pose proof (COS_bound phase). lra. Qed.

Lemma vis_viva_ok (d a : R) :
  0 < d -> 0 < a -> d <= 2 * a ->
  exists v, vis_viva d a = Ok v.
Proof.
  intros Hd Ha Hda. unfold vis_viva. cbv zeta.
  rewrite !pydiv_nonzero by lra. cbn [bind].
  rewrite pysqrt_nonneg; [eexists; reflexivity|].
  apply Rmult_le_pos; [unfold G, M_SUN; lra|].
  replace (2 / d - 1 / a) with ((2 * a - d) / (d * a)) by (field; lra).
  apply Rmult_le_pos; [lra|].
  apply Rlt_le, Rinv_0_lt_compat, Rmult_lt_0_compat; assumption.
Qed.

Lemma transfer_vis_viva_ok (d : R) :
  0 < d -> exists v, vis_viva (d * AU) ((1.0 + d) / 2 * AU) = Ok v.
Proof.
  intros Hd. apply vis_viva_ok; unfold AU; lra.
Qed.

Lemma Rmin_progress (t c : R) : 0 <= t -> 0 < c -> 0 <= Rmin (t / c) 1.0 <= 1.
Proof.
  intros Ht Hc.
  assert (0 <= t / c) by (apply Rmult_le_pos; [lra | apply Rlt_le, Rinv_0_lt_compat; lra]).
  unfold Rmin. destruct (Rle_dec (t / c) 1.0); lra.
Qed.

Lemma Rmin_cap (t c : R) : Rmin (t / c) 1.0 <= 1.
Proof. unfold Rmin. destruct (Rle_dec (t / c) 1.0); lra. Qed.

Lemma Rmin_full (t c : R) : 0 < c -> c <= t -> Rmin (t / c) 1.0 = 1.
Proof.
  intros Hc Ht. unfold Rmin.
  assert (1 <= t / c).
  { apply (Rmult_le_reg_r c); [lra|]. unfold Rdiv.
    rewrite Rmult_assoc, Rinv_l by lra. lra. }
  destruct (Rle_dec (t / c) 1.0); lra.
Qed.

Lemma AU_pos : 0 < AU.
Proof. unfold AU. lra. Qed.

Lemma transfer_vis_viva_negative (d : R) :
  -1 < d < 0 -> vis_viva (d * AU) ((1.0 + d) / 2 * AU) = Raise ValueError.
Proof.
  intros Hd. unfold vis_viva. cbv zeta.
  rewrite !pydiv_nonzero by (unfold AU; lra). cbn [bind].
  apply pysqrt_negative.
  replace (1.0 + d) with (1 + d) by lra.
  replace (2 / (d * AU) - 1 / ((1 + d) / 2 * AU))
    with (- (2 / ((- d) * (1 + d) * AU)))
    by (pose proof AU_pos; field; repeat split; lra).
  assert (0 < 2 / ((- d) * (1 + d) * AU)).
  { apply Rmult_lt_0_compat; [lra|]. apply Rinv_0_lt_compat.
    apply Rmult_lt_0_compat; [|unfold AU; lra].
    apply Rmult_lt_0_compat; lra. }
  assert (0 < G * M_SUN) by (unfold G, M_SUN; lra).
  nra.
Qed.

Section SpacecraftMore.

Variable World : Type.
Variable datetime_now : World -> datetime.

Local Abbreviation position := (calculate_spacecraft_position datetime_now).

Lemma spacecraft_position_inv
    (w : World) (sc : spacecraft_data) (tp ep : option pydict) (sv : StateVector) :
  position w sc tp ep = Ok sv ->
  exists launch speed,
    strptime (launch_date sc) = Ok launch
    /\ let t := years_between (datetime_now w) launch in
       let arrived := has_arrived (arrival_time sc) (datetime_now w) in
       let d := spacecraft_distance sc launch t arrived in
       let angle := pymod (t * 2 * PI) (2 * PI) in
       spacecraft_speed sc tp ep t arrived d = Ok speed
       /\ sv = {| x := d * cos angle; y := d * sin angle; z := d * 0.05 * sin angle;
                  vx := - speed * sin angle; vy := speed * cos angle; vz := 0;
                  distance_sun := d; speed_sun := speed |}.
Proof.
  unfold calculate_spacecraft_position. intros H.
  apply bind_ok_inv in H. destruct H as (launch & Hl & H).
  apply bind_ok_inv in H. destruct H as (speed & Hs & H).
  injection H as <-. exists launch, speed. auto.
Qed.

(** X15. Every returned spacecraft state has a position whose
    projection on the ecliptic lies at the reported distance, a height
    that is five hundredths of its [y], a velocity of the reported speed,
    and that velocity is at right angles to the projected position. *)
Theorem spacecraft_state_geometry
    (w : World) (sc : spacecraft_data) (tp ep : option pydict) (sv : StateVector) :
  position w sc tp ep = Ok sv ->
  x sv ^ 2 + y sv ^ 2 = distance_sun sv ^ 2
  /\ z sv = 0.05 * y sv
  /\ vx sv ^ 2 + vy sv ^ 2 + vz sv ^ 2 = speed_sun sv ^ 2
  /\ x sv * vx sv + y sv * vy sv = 0.
Proof.
  intros H. destruct (spacecraft_position_inv w sc tp ep sv H)
    as (launch & speed & _ & _ & ->).
  cbn [x y z vx vy vz distance_sun speed_sun].
  set (angle := pymod _ _). set (d := spacecraft_distance _ _ _ _).
  pose proof (trig_one angle) as Ht.
  repeat split.
  - transitivity (d ^ 2 * (cos angle * cos angle + sin angle * sin angle)); [ring|].
    rewrite Ht. ring.
  - ring.
  - transitivity (speed ^ 2 * (cos angle * cos angle + sin angle * sin angle)); [ring|].
    rewrite Ht. ring.
  - ring.
Qed.


(** Case analysis on the tests of the two dispatches, one elementary
    test at a time. *)
Ltac test_atom c :=
  lazymatch c with
  | andb ?a _ => test_atom a
  | orb ?a _ => test_atom a
  | negb ?a => test_atom a
  | _ => c
  end.

Ltac split_tests :=
  cbn [andb orb negb];
  repeat match goal with
  | |- context [if ?c then _ else _] =>
      let a := test_atom c in
      lazymatch a with
      | true => fail
      | false => fail
      | _ => destruct a eqn:?; cbn [andb orb negb]
      end
  end.

Ltac known_target :=
  cbn [String.eqb Ascii.eqb Bool.eqb andb orb negb].

(** X16. An inactive probe bound for interstellar space: a NULL
    [launch_speed] raises [TypeError], a missing one stands for 16 km/s,
    and the reported speed is 0.95 times the launch speed. *)
Theorem inactive_interstellar_launch_speed
    (w : World) (sc : spacecraft_data) (tp ep : option pydict) (launch : datetime) :
  status sc = "inactive"%string ->
  target_body sc = Some "Interstellar space"%string ->
  strptime (launch_date sc) = Ok launch ->
  (launch_speed sc = Null -> position w sc tp ep = Raise TypeError)
  /\ (launch_speed sc = Missing ->
      exists sv, position w sc tp ep = Ok sv /\ speed_sun sv = 16 * 0.95)
  /\ (forall v, launch_speed sc = Val v ->
      exists sv, position w sc tp ep = Ok sv /\ speed_sun sv = v * 0.95).
Proof.
  intros Hs Ht Hl.
  rewrite (spacecraft_position_unfold _ datetime_now w sc tp ep launch Hl).
  unfold spacecraft_speed, target_is, get_launch_speed. rewrite Hs, Ht.
  cbn [String.eqb Ascii.eqb Bool.eqb].
  repeat split.
  - intros ->. reflexivity.
  - intros ->. eexists. split; reflexivity.
  - intros v ->. eexists. split; reflexivity.
Qed.

(** X17. An inactive spacecraft gets a state at every reading of the
    clock, unless it is bound for interstellar space with a NULL launch speed. *)
Theorem inactive_spacecraft_returns
    (w : World) (sc : spacecraft_data) (tp ep : option pydict) (launch : datetime) :
  status sc = "inactive"%string ->
  strptime (launch_date sc) = Ok launch ->
  (target_body sc = Some "Interstellar space"%string -> launch_speed sc <> Null) ->
  exists sv, position w sc tp ep = Ok sv.
Proof.
  intros Hs Hl Hn.
  rewrite (spacecraft_position_unfold _ datetime_now w sc tp ep launch Hl).
  unfold spacecraft_speed, target_is, get_launch_speed. rewrite Hs.
  cbn [String.eqb Ascii.eqb Bool.eqb]. cbv zeta.
  destruct (target_body sc) as [tb|]; [|eexists; reflexivity].
  destruct (String.eqb_spec tb "Interstellar space") as [->|Hne];
    [|eexists; reflexivity].
  destruct (launch_speed sc); [eexists; reflexivity | | eexists; reflexivity].
  exfalso. apply Hn; reflexivity.
Qed.

(** X18. An active craft bound for Jupiter, Saturn or Mars is never reported
    beyond the target's orbit; once the nominal transfer time has passed
    it is reported on that orbit; and it is at least 1 AU out when the
    launch is not in the future. *)
Theorem active_planet_transfer_distance
    (w : World) (sc : spacecraft_data) (tp ep : option pydict)
    (launch : datetime) (sv : StateVector) (target : string) (orbit years : R) :
  String.eqb (status sc) "inactive" = false ->
  strptime (launch_date sc) = Ok launch ->
  position w sc tp ep = Ok sv ->
  target_body sc = Some target ->
  (target, orbit, years) = ("Jupiter"%string, 5.2, 6.0)
  \/ (target, orbit, years) = ("Saturn"%string, 9.5, 7.0)
  \/ (target, orbit, years) = ("Mars"%string, 1.5, 0.55) ->
  distance_sun sv <= orbit
  /\ (years <= years_between (datetime_now w) launch -> distance_sun sv = orbit)
  /\ ((0 <= datetime_sub (datetime_now w) launch)%Z -> 1 <= distance_sun sv).
Proof.
  intros Hs Hl H Ht Hcase.
  destruct (spacecraft_position_inv w sc tp ep sv H) as (launch' & speed & Hl' & _ & ->).
  rewrite Hl in Hl'. injection Hl' as <-.
  cbn [distance_sun].
  set (t := years_between (datetime_now w) launch).
  unfold spacecraft_distance, target_is. rewrite Hs, Ht. cbv zeta.
  pose proof (Rmin_cap t 6.0) as C6. pose proof (Rmin_cap t 7.0) as C7.
  pose proof (Rmin_cap t 0.55) as C5.
  destruct Hcase as [E|[E|E]]; injection E as -> -> ->; known_target;
    split_tests;
    (split; [lra|]; split;
     [ intros Hy; try lra;
       rewrite ?(Rmin_full t 6.0), ?(Rmin_full t 7.0), ?(Rmin_full t 0.55) by lra; lra
     | intros Hpast; apply years_between_nonneg in Hpast; fold t in Hpast;
       pose proof (Rmin_progress t 6.0 Hpast ltac:(lra));
       pose proof (Rmin_progress t 7.0 Hpast ltac:(lra));
       pose proof (Rmin_progress t 0.55 Hpast ltac:(lra)); lra ]).
Qed.

(** X19. The solar probe: a state at every reading of the clock, at a
    distance between the perihelion and the aphelion of the code. *)
Theorem solar_probe_returns
    (w : World) (sc : spacecraft_data) (tp ep : option pydict) (launch : datetime) :
  String.eqb (status sc) "inactive" = false ->
  target_body sc = Some "Sun"%string ->
  name_en sc = "Parker Solar Probe"%string ->
  strptime (launch_date sc) = Ok launch ->
  exists sv,
    position w sc tp ep = Ok sv
    /\ 0.046 <= distance_sun sv <= 0.73
    /\ 0 <= speed_sun sv.
Proof.
  intros Hs Ht Hn Hl.
  rewrite (spacecraft_position_unfold _ datetime_now w sc tp ep launch Hl).
  unfold spacecraft_speed, spacecraft_distance, target_is. rewrite Hs, Ht, Hn.
  known_target. cbv zeta.
  set (phase := pymod _ 0.24 / 0.24 * 2 * PI).
  pose proof (solar_orbit_distance_bounds phase) as Hb.
  set (d := (0.046 + 0.73) / 2 * (1 - 0.88 * cos phase)) in *.
  pose proof (COS_bound phase) as Hc.
  destruct (vis_viva_ok (d * AU) ((0.046 + 0.73) / 2 * AU)) as [v Hv];
    try (unfold AU, d; lra).
  rewrite Hv. cbn [bind]. eexists. split; [reflexivity|].
  cbn [distance_sun speed_sun]. split; [exact Hb|].
  unfold vis_viva in Hv. cbv zeta in Hv.
  apply bind_ok_inv in Hv. destruct Hv as (q1 & _ & Hv).
  apply bind_ok_inv in Hv. destruct Hv as (q2 & _ & Hv).
  apply pysqrt_ok_inv in Hv. destruct Hv as [_ ->]. apply sqrt_pos.
Qed.


Ltac target_cases tb :=
  destruct (String.eqb_spec tb "Jupiter") as [->|?]; [known_target|];
  [|destruct (String.eqb_spec tb "Saturn") as [->|?]; [known_target|];
  [|destruct (String.eqb_spec tb "Mars") as [->|?]; [known_target|];
  [|destruct (String.eqb_spec tb "Sun") as [->|?]; [known_target|];
  [|destruct (String.eqb_spec tb "Europa") as [->|?]; [known_target|];
  [|destruct (String.eqb_spec tb "Trojan asteroids") as [->|?]; [known_target|];
  [|destruct (String.eqb_spec tb "Kuiper Belt") as [->|?]; [known_target|]]]]]]].

Ltac speed_leaf :=
  lazymatch goal with
  | |- context [vis_viva (?d * AU) ((1.0 + ?d) / 2 * AU)] =>
      let v := fresh "v" in
      let Hv := fresh "Hv" in
      destruct (transfer_vis_viva_ok d ltac:(lra)) as [v Hv]; rewrite Hv
  | |- context [vis_viva (?d * AU) (?a * AU)] =>
      let v := fresh "v" in
      let Hv := fresh "Hv" in
      destruct (vis_viva_ok (d * AU) (a * AU)
                  ltac:(unfold AU; lra) ltac:(unfold AU; lra) ltac:(unfold AU; lra))
        as [v Hv]; rewrite Hv
  | _ => idtac
  end;
  cbn [bind]; eexists; (split; [reflexivity | cbn [distance_sun]; lra]).

(** X20. An active craft that is not bound for interstellar space gets
    a state, at a positive distance from the Sun, whenever its launch is
    not in the future. *)
Theorem active_spacecraft_returns
    (w : World) (sc : spacecraft_data) (tp ep : option pydict) (launch : datetime) :
  String.eqb (status sc) "inactive" = false ->
  target_is sc "Interstellar space" = false ->
  strptime (launch_date sc) = Ok launch ->
  (0 <= datetime_sub (datetime_now w) launch)%Z ->
  exists sv, position w sc tp ep = Ok sv /\ 0 < distance_sun sv.
Proof.
  intros Hs Hi Hl Hpast.
  rewrite (spacecraft_position_unfold _ datetime_now w sc tp ep launch Hl).
  apply years_between_nonneg in Hpast.
  set (t := years_between (datetime_now w) launch) in *.
  pose proof (Rmin_progress t 6.0 Hpast ltac:(lra)) as P6.
  pose proof (Rmin_progress t 7.0 Hpast ltac:(lra)) as P7.
  pose proof (Rmin_progress t 0.55 Hpast ltac:(lra)) as P5.
  pose proof (Rmin_progress t 12.0 Hpast ltac:(lra)) as P12.
  pose proof (solar_orbit_distance_bounds (pymod t 0.24 / 0.24 * 2 * PI)) as PS.
  revert Hi. unfold spacecraft_speed, spacecraft_distance, target_is.
  rewrite Hs. cbv zeta.
  destruct tp as [[|? ?]|]; destruct ep as [[|? ?]|]; cbn [dict_truthy];
  (destruct (target_body sc) as [tb|];
   [destruct (String.eqb_spec tb "Interstellar space") as [->|?];
    [discriminate|]; intros _; target_cases tb
   |intros _]);
  split_tests; speed_leaf.
Qed.

(** X21. A launch date far enough in the future makes the call raise: for an
    active craft without a known target, not an orbiter, rover or lander
    and without arrival time, between ten thirds and twenty thirds of a
    year before launch the transfer speed is the square root of a
    negative number. *)
Theorem future_launch_raises
    (w : World) (sc : spacecraft_data) (tp ep : option pydict) (launch : datetime) :
  String.eqb (status sc) "inactive" = false ->
  (forall name, In name known_targets -> target_is sc name = false) ->
  contains "orbiter" (trajectory_type sc) = false ->
  contains "rover" (trajectory_type sc) = false ->
  contains "lander" (trajectory_type sc) = false ->
  arrival_time sc = None ->
  strptime (launch_date sc) = Ok launch ->
  - (20 / 3) < years_between (datetime_now w) launch < - (10 / 3) ->
  position w sc tp ep = Raise ValueError.
Proof.
  intros Hs Hk Ho Hr Hla Ha Hl Ht.
  rewrite (spacecraft_position_unfold _ datetime_now w sc tp ep launch Hl).
  set (t := years_between (datetime_now w) launch) in *.
  unfold spacecraft_speed, spacecraft_distance. rewrite Hs, Ha, Ho, Hr, Hla.
  rewrite !Hk by (cbn; tauto).
  cbn [andb orb negb has_arrived]. cbv zeta.
  rewrite transfer_vis_viva_negative by lra. reflexivity.
Qed.

End SpacecraftMore.

Lemma spacecraft_state_geometry_witness :
  exists sv,
    calculate_spacecraft_position clock_now noon_2024_01_01 galileo None None = Ok sv
    /\ z sv = 0.05 * y sv.
Proof.
  eexists. split; [reflexivity|].
  refine (proj1 (proj2 (spacecraft_state_geometry _ clock_now noon_2024_01_01
                          galileo None None _ _))).
  reflexivity.
Defined.

Lemma inactive_interstellar_launch_speed_witness :
  exists sv,
    calculate_spacecraft_position clock_now noon_2024_01_01 pioneer_10 None None = Ok sv
    /\ speed_sun sv = 14.3 * 0.95.
Proof.
  apply (proj2 (proj2 (inactive_interstellar_launch_speed _ clock_now
                         noon_2024_01_01 pioneer_10 None None
                         (mk_datetime 1972 3 2 0 0 0 0) eq_refl eq_refl eq_refl))
           14.3 eq_refl).
Defined.

Lemma inactive_spacecraft_returns_witness :
  exists sv,
    calculate_spacecraft_position clock_now noon_2024_01_01 galileo None None = Ok sv.
Proof.
  apply (inactive_spacecraft_returns _ clock_now noon_2024_01_01 galileo None None
           (mk_datetime 1989 10 18 0 0 0 0) eq_refl eq_refl).
  discriminate.
Defined.

Lemma active_planet_transfer_distance_witness :
  exists sv,
    calculate_spacecraft_position clock_now noon_2024_01_01 juno None None = Ok sv
    /\ distance_sun sv <= 5.2.
Proof.
  eexists. split; [reflexivity|].
  refine (proj1 (active_planet_transfer_distance _ clock_now noon_2024_01_01
                   juno None None (mk_datetime 2011 8 5 0 0 0 0) _
                   "Jupiter"%string 5.2 6.0 eq_refl eq_refl _ eq_refl
                   (or_introl eq_refl))).
  reflexivity.
Defined.

Lemma solar_probe_returns_witness :
  exists sv,
    calculate_spacecraft_position clock_now noon_2024_01_01
      parker_solar_probe None None = Ok sv
    /\ 0.046 <= distance_sun sv <= 0.73
    /\ 0 <= speed_sun sv.
Proof.
  apply (solar_probe_returns _ clock_now noon_2024_01_01 parker_solar_probe
           None None (mk_datetime 2018 8 12 0 0 0 0) eq_refl eq_refl eq_refl eq_refl).
Defined.

Lemma active_spacecraft_returns_witness :
  exists sv,
    calculate_spacecraft_position clock_now noon_2024_01_01 juno None None = Ok sv
    /\ 0 < distance_sun sv.
Proof.
  apply (active_spacecraft_returns _ clock_now noon_2024_01_01 juno None None
           (mk_datetime 2011 8 5 0 0 0 0) eq_refl eq_refl eq_refl).
  discriminate.
Defined.

Lemma future_launch_raises_witness :
  calculate_spacecraft_position clock_now noon_2025_01_01 planned_probe None None
  = Raise ValueError.
Proof.
  apply (future_launch_raises _ clock_now noon_2025_01_01 planned_probe None None
           (mk_datetime 2030 1 1 0 0 0 0) eq_refl (fun _ _ => eq_refl)
           eq_refl eq_refl eq_refl eq_refl eq_refl).
  unfold years_between, clock_now. eval_elapsed.
  unfold YEAR_SECONDS, DAY_SECONDS. lra.
Defined.

(** ** Elapsed time and target distance *)

Section FormatProps.

Variable World : Type.
Variable datetime_now : World -> datetime.

Local Open Scope Z_scope.

(** X22. The elapsed time is split into years of 365 days, the days left over
    and the hours of the last day: the parts are in range, and put
    together give back the whole days and hours elapsed. *)
Theorem format_time_since_launch_parts
    (w : World) (s : string) (launch : datetime) :
  strptime s = Ok launch ->
  exists r,
    format_time_since_launch datetime_now w s = Ok r
    /\ 0 <= days r < 365
    /\ 0 <= hours r < 24
    /\ (let us := datetime_sub (datetime_now w) launch in
        ((years r * 365 + days r) * 24 + hours r) * 3600000000
          <= us < ((years r * 365 + days r) * 24 + hours r + 1) * 3600000000)
    /\ (0 <= datetime_sub (datetime_now w) launch -> 0 <= years r).
Proof.
  intros Hl. unfold format_time_since_launch. rewrite Hl. cbn [bind].
  eexists. split; [reflexivity|]. cbn [years days hours].
  unfold timedelta_days, timedelta_seconds.
  set (us := datetime_sub (datetime_now w) launch).
  repeat split; try (Z.div_mod_to_equations; lia).
Qed.

(** X23. A launch date that does not parse makes
    [format_time_since_launch] raise [ValueError]. *)
Theorem format_time_since_launch_bad_date (w : World) (s : string) (e : exn) :
  strptime s = Raise e ->
  format_time_since_launch datetime_now w s = Raise ValueError.
Proof.
  intros Hl. unfold format_time_since_launch. rewrite Hl. cbn [bind].
  f_equal. apply (strptime_raises s e Hl).
Qed.

End FormatProps.

Lemma format_time_since_launch_parts_witness :
  exists r,
    format_time_since_launch clock_now noon_2024_01_01 "1989-10-18" = Ok r
    /\ (0 <= days r < 365)%Z.
Proof.
  destruct (format_time_since_launch_parts _ clock_now noon_2024_01_01
              "1989-10-18" (mk_datetime 1989 10 18 0 0 0 0) eq_refl)
    as (r & H & Hd & _).
  exists r. split; assumption.
Defined.

Lemma format_time_since_launch_bad_date_witness :
  format_time_since_launch clock_now noon_2024_01_01 "18 Oct 1989"
  = Raise ValueError.
Proof.
  apply (format_time_since_launch_bad_date _ clock_now noon_2024_01_01
           "18 Oct 1989" ValueError eq_refl).
Defined.

(** X24. A target distance is reported only for an active craft that has not
    arrived and whose target is looked up under a planet of the list;
    the [target_position_known] flag says whether it is reported. *)
Theorem target_distance_only_when
    (sc : spacecraft_data) (now : datetime)
    (planets : list (string * StateVector)) (position : StateVector)
    (info : target_info) :
  spacecraft_target_info sc now planets position = Ok (Some info) ->
  status sc = "active"%string
  /\ (target_position_known info = true <-> target_distance info <> None)
  /\ (forall d, target_distance info = Some d ->
        app_has_arrived sc now = false
        /\ exists target name p,
             target_body sc = Some target
             /\ In (target, name)
                  [("Jupiter", "Jupiter"); ("Saturn", "Saturn"); ("Mars", "Mars");
                   ("Europa", "Jupiter")]%string
             /\ find_planet planets name = Some p
             /\ calculate_distance_to_target position (snd p) = Ok d).
Proof.
  unfold spacecraft_target_info.
  destruct (String.eqb_spec (status sc) "active") as [Hs|Hs]; [|discriminate].
  intros H. split; [exact Hs|].
  destruct (target_body sc) as [target|].
  2:{ injection H as <-. cbn. split; [split; [discriminate|congruence]|discriminate]. }
  destruct (app_has_arrived sc now); cbn [negb andb] in H.
  { injection H as <-. cbn. split; [split; [discriminate|congruence]|discriminate]. }
  destruct (str_truthy target).
  2:{ injection H as <-. cbn. split; [split; [discriminate|congruence]|discriminate]. }
  cbv zeta in H.
  destruct (match target_mapping_get target with
            | Some name => if str_truthy name then find_planet planets name else None
            | None => None
            end) as [p|] eqn:Hp.
  2:{ injection H as <-. cbn. split; [split; [discriminate|congruence]|discriminate]. }
  apply bind_ok_inv in H. destruct H as (d & Hd & H). injection H as <-.
  cbn [target_distance target_position_known].
  split; [split; [discriminate|reflexivity]|].
  intros d' Hd'. injection Hd' as <-. split; [reflexivity|].
  unfold target_mapping_get in Hp.
  destruct (String.eqb_spec target "Jupiter") as [->|?].
  { exists "Jupiter"%string, "Jupiter"%string, p. cbn in *. tauto. }
  destruct (String.eqb_spec target "Saturn") as [->|?].
  { exists "Saturn"%string, "Saturn"%string, p. cbn in *. tauto. }
  destruct (String.eqb_spec target "Mars") as [->|?].
  { exists "Mars"%string, "Mars"%string, p. cbn in *. tauto. }
  destruct (String.eqb_spec target "Sun") as [->|?]; [discriminate|].
  destruct (String.eqb_spec target "Europa") as [->|?].
  { exists "Europa"%string, "Jupiter"%string, p. cbn in *. tauto. }
  repeat (destruct (String.eqb target _); try discriminate).
Qed.

Lemma europa_clipper_target_info :
  spacecraft_target_info europa_clipper noon_2025_01_01 jupiter_only resting_parent
  = Ok (Some {| target_distance := Some (norm3 (1 - 5) (0 - 0) (0 - 0));
                target_position_known := true |}).
Proof.
  unfold spacecraft_target_info.
  change (String.eqb (status europa_clipper) "active") with true.
  change (app_has_arrived europa_clipper noon_2025_01_01) with false.
  change (target_body europa_clipper) with (Some "Europa"%string).
  cbn [negb andb str_truthy]. cbv zeta.
  change (target_mapping_get "Europa") with (Some "Jupiter"%string).
  cbn [str_truthy find_planet jupiter_only fst snd String.eqb Ascii.eqb Bool.eqb].
  unfold calculate_distance_to_target.
  rewrite pysqrt_nonneg by apply sum_squares_nonneg.
  cbn [bind x y z resting_parent]. rewrite sum_squares_norm3. reflexivity.
Defined.

Lemma target_distance_only_when_witness :
  status europa_clipper = "active"%string
  /\ app_has_arrived europa_clipper noon_2025_01_01 = false.
Proof.
  destruct (target_distance_only_when europa_clipper noon_2025_01_01
              jupiter_only resting_parent _ europa_clipper_target_info)
    as (Hs & _ & Hd).
  split; [exact Hs|].
  apply (Hd _ eq_refl).
Defined.
